(** * Maya Dashboard: the stats views, their refresh protocol and the portal shell

    A shallow embedding of the React front end of the Maya Dashboard
    ([frontend/src/App.tsx], [frontend/src/pages/EbookStats.tsx],
    [frontend/src/pages/PledgeManagerStats.tsx]) together with the two
    server-side components the front end talks to (cookie policy and
    snapshot cache).

    Conventions.
    - A JavaScript [number] that only ever holds an integer (counters, page
      numbers, array lengths, user counts) is a [Z].
    - A JavaScript string is a [string] of code units below 256; the string
      primitives are modelled on that alphabet.
    - [useState] cells are record fields and their setters are record
      updates.  An [async] function is cut at its [await] into the segment
      that runs before the promise settles and the segment that runs after.
*)

From Stdlib Require Import ZArith List String Ascii Bool Lia QArith Qround.
From stdpp Require Import base decidable option list gmap strings pretty.

Local Open Scope string_scope.
Local Open Scope list_scope.
Local Open Scope Z_scope.

(** ** JavaScript primitives used by the views *)

Module JS.

(** [Boolean(s)] for a string: every string except the empty one is truthy. *)
Definition truthy (s : string) : bool :=
  match s with
  | EmptyString => false
  | String _ _ => true
  end.

(** The capital letters of Latin-1: A-Z, and U+00C0 to U+00DE except the
    multiplication sign U+00D7; each lies 32 below its small letter. *)
Definition lower_unit (c : ascii) : ascii :=
  let n := N_of_ascii c in
  if (((65 <=? n) && (n <=? 90))
      || ((192 <=? n) && (n <=? 222) && negb (n =? 215)))%N
  then ascii_of_N (n + 32) else c.

(** [String.prototype.toLowerCase]. *)
Fixpoint toLowerCase (s : string) : string :=
  match s with
  | EmptyString => EmptyString
  | String c r => String (lower_unit c) (toLowerCase r)
  end.

(** White space and line terminators removed by [trim]: TAB, LF, VT, FF,
    CR, SPACE and NBSP. *)
Definition is_space (c : ascii) : bool :=
  let n := N_of_ascii c in
  (((9 <=? n) && (n <=? 13)) || (n =? 32) || (n =? 160))%N.

Fixpoint trimStart (s : string) : string :=
  match s with
  | EmptyString => EmptyString
  | String c r => if is_space c then trimStart r else s
  end.

Fixpoint trimEnd (s : string) : string :=
  match s with
  | EmptyString => EmptyString
  | String c r =>
      match trimEnd r with
      | EmptyString => if is_space c then EmptyString else String c EmptyString
      | r' => String c r'
      end
  end.

(** [String.prototype.trim]. *)
Definition trim (s : string) : string := trimEnd (trimStart s).

(** [s.includes(p)]: [p] occurs in [s] as a contiguous substring. *)
Fixpoint includes (s p : string) : bool :=
  String.prefix p s ||
  match s with
  | EmptyString => false
  | String _ r => includes r p
  end.

(** [Array.prototype.slice(start, end)], with the relative indices of the
    language: a negative index counts from the end, and both indices are
    clamped to the array. *)
Definition slice {A} (l : list A) (start end_ : Z) : list A :=
  let len := Z.of_nat (length l) in
  let k := if start <? 0 then Z.max (len + start) 0 else Z.min start len in
  let final := if end_ <? 0 then Z.max (len + end_) 0 else Z.min end_ len in
  take (Z.to_nat (final - k)) (drop (Z.to_nat k) l).

(** [Math.ceil(a / b)] for integers [a] and [b]: the quotient is rounded
    towards plus infinity. *)
Definition ceil_div (a b : Z) : Z := - ((- a) / b).

End JS.

(** ** The fetch-and-store logic shared by the stats views

    [EbookStats] and [PledgeManagerStats] carry the same [apiFetch],
    [fetchStats], mount effect and refresh effect; they differ in the type of
    the response, in the two endpoints and in the fallback error message. *)

Module StatsView.

Inductive Method := GET | POST.

(** What a [catch] clause can receive: an [Error] object or anything else. *)
Inductive Thrown :=
| ErrorObject (message : string)
| NonError.

Inductive Outcome (Resp : Type) :=
| Resolved (stats : Resp)
| Rejected (e : Thrown).
Arguments Resolved {Resp} stats.
Arguments Rejected {Resp} e.

(** The HTTP exchange as [apiFetch] observes it. *)
Record Response (Resp : Type) := {
  res_ok : bool;
  res_status : N;
  res_text : option string;      (* [None]: [res.text()] rejected *)
  res_json : Resp + string       (* [inr m]: [res.json()] rejected with message [m] *)
}.
Arguments res_ok {Resp} _.
Arguments res_status {Resp} _.
Arguments res_text {Resp} _.
Arguments res_json {Resp} _.

Inductive Exchange (Resp : Type) :=
| NetworkError (message : string)   (* [fetch] itself rejected *)
| Responded (res : Response Resp).
Arguments NetworkError {Resp} message.
Arguments Responded {Resp} res.

Definition apiFetch {Resp} (x : Exchange Resp) : Outcome Resp :=
  match x with
  | NetworkError m => Rejected (ErrorObject m)
  | Responded res =>
      if negb (res_ok res) then
        let text := default "" (res_text res) in
        Rejected (ErrorObject
          (if JS.truthy text then text
           else "Request failed (" +:+ pretty (res_status res) +:+ ")"))
      else
        match res_json res with
        | inl v => Resolved v
        | inr m => Rejected (ErrorObject m)
        end
  end.

(** The three [useState] cells of a stats view. *)
Record Hooks (Resp : Type) := {
  data : option Resp;
  loading : bool;
  error : option string
}.
Arguments data {Resp} _.
Arguments loading {Resp} _.
Arguments error {Resp} _.

(** A call of one of the state setters. *)
Inductive Mutation (Resp : Type) :=
| SetData (d : option Resp)
| SetLoading (b : bool)
| SetError (e : option string).
Arguments SetData {Resp} d.
Arguments SetLoading {Resp} b.
Arguments SetError {Resp} e.

(** The component state together with a spy that records every setter
    call in order. *)
Record World (Resp : Type) := {
  hooks : Hooks Resp;
  spy : list (Mutation Resp)
}.
Arguments hooks {Resp} _.
Arguments spy {Resp} _.

Section View.
Context {Resp : Type}.
(** The message used when the thrown value is not an [Error]. *)
Variable fallbackMessage : string.

Definition initialHooks : Hooks Resp :=
  {| data := None; loading := true; error := None |}.

Definition initialWorld : World Resp :=
  {| hooks := initialHooks; spy := [] |}.

Definition apply (m : Mutation Resp) (h : Hooks Resp) : Hooks Resp :=
  match m with
  | SetData d => {| data := d; loading := loading h; error := error h |}
  | SetLoading b => {| data := data h; loading := b; error := error h |}
  | SetError e => {| data := data h; loading := loading h; error := e |}
  end.

Definition call (m : Mutation Resp) (w : World Resp) : World Resp :=
  {| hooks := apply m (hooks w); spy := spy w ++ [m] |}.

Definition setData d := call (SetData d).
Definition setLoading b := call (SetLoading b).
Definition setError e := call (SetError e).

Definition messageOf (e : Thrown) : string :=
  match e with
  | ErrorObject m => m
  | NonError => fallbackMessage
  end.

(** [fetchStats] up to its [await apiFetch(...)]. *)
Definition fetchStats_begin (w : World Resp) : World Resp :=
  setError None w.

(** [fetchStats] from the moment the promise of [apiFetch] settles. *)
Definition fetchStats_settle (o : Outcome Resp) (w : World Resp) : World Resp :=
  match o with
  | Resolved stats => setData (Some stats) w
  | Rejected e => setError (Some (messageOf e)) (setData None w)
  end.

(** The mount effect up to [await fetchStats('GET')]. *)
Definition mountEffect_begin (w : World Resp) : World Resp :=
  fetchStats_begin (setLoading true w).

(** The mount effect after the [await]; [cancelled] is the value the
    closure's flag has at that moment. *)
Definition mountEffect_settle (cancelled : bool) (o : Outcome Resp)
    (w : World Resp) : World Resp :=
  let w1 := fetchStats_settle o w in
  if negb cancelled then setLoading false w1 else w1.

(** The refresh effect for the value [refreshSeq] of its dependency:
    [None] when it returns at once, otherwise the world after the
    synchronous part of [fetchStats('POST')]. *)
Definition refreshEffect_begin (refreshSeq : Z) (w : World Resp)
    : option (World Resp) :=
  if refreshSeq =? 0 then None else Some (fetchStats_begin w).

(** The refresh effect after the [await]: the new world, and whether
    [onRefreshComplete] is called in the [finally] clause. *)
Definition refreshEffect_settle (cancelled : bool) (o : Outcome Resp)
    (w : World Resp) : World Resp * bool :=
  (fetchStats_settle o w, negb cancelled).

(** *** One run of the mount effect as a small machine *)

Record MountRun := {
  world : World Resp;
  cancelled : bool;       (* the [let cancelled] of the closure *)
  awaiting : bool;        (* the request has not settled yet *)
  spyMark : nat           (* length of the spy when the cleanup ran *)
}.

Inductive MountEvent :=
| Unmount                              (* React runs the effect cleanup *)
| Settles (o : Outcome Resp).          (* the promise of [apiFetch] settles *)

Definition mount (w : World Resp) : MountRun :=
  {| world := mountEffect_begin w; cancelled := false; awaiting := true;
     spyMark := 0 |}.

Definition mountStep (r : MountRun) (ev : MountEvent) : MountRun :=
  match ev with
  | Unmount =>
      {| world := world r; cancelled := true; awaiting := awaiting r;
         spyMark := if cancelled r then spyMark r else length (spy (world r)) |}
  | Settles o =>
      if awaiting r then
        {| world := mountEffect_settle (cancelled r) o (world r);
           cancelled := cancelled r; awaiting := false;
           spyMark := spyMark r |}
      else r
  end.

Definition mountRun (evs : list MountEvent) (w : World Resp) : MountRun :=
  fold_left mountStep evs (mount w).

(** The setter calls made after the cancelled flag was set. *)
Definition mutationsAfterCancel (r : MountRun) : list (Mutation Resp) :=
  if cancelled r then drop (spyMark r) (spy (world r)) else [].

End View.

End StatsView.


(** ** [pages/EbookStats.tsx] *)

Module EbookStats.

Record UserSummary := {
  count_visited : Z;
  count_pdf : Z;
  count_pdf_full : Z;
  count_pdf_compressed : Z;
  count_epub : Z;
  count_both : Z;
  count_pdf_only : Z;
  count_epub_only : Z;
  count_kindle : Z
}.

Record UserRow := {
  id : Z;
  email : string;
  name : string;
  reward_title : string;
  visited : bool;
  dl_pdf : bool;
  dl_pdf_full : bool;
  dl_pdf_compressed : bool;
  dl_epub : bool;
  dl_kindle : bool
}.

#[global] Instance UserRow_eq_dec : EqDecision UserRow.
Proof. solve_decision. Defined.

Record EbookStatsResponse := {
  ok : bool;
  generated_at : string;
  window_days : Z;
  user_summary : UserSummary;
  users : list UserRow
}.

(** The string literal type [Filter]. *)
Inductive Filter :=
| F_all | F_visited | F_pdf | F_pdf_full | F_pdf_compressed
| F_epub | F_both | F_kindle.

#[global] Instance Filter_eq_dec : EqDecision Filter.
Proof. solve_decision. Defined.

Definition WINDOW_DAYS : Z := 30.
Definition PAGE_SIZE : Z := 20.

Definition fallbackMessage : string := "Failed to load eBook stats".

Definition endpoint (method : StatsView.Method) : string :=
  match method with
  | StatsView.GET => "/api/ebook/stats?days=" +:+ pretty WINDOW_DAYS
  | StatsView.POST => "/api/ebook/sync?days=" +:+ pretty WINDOW_DAYS
  end.

Definition fetchStats_begin :=
  @StatsView.fetchStats_begin EbookStatsResponse.
Definition fetchStats_settle :=
  @StatsView.fetchStats_settle EbookStatsResponse fallbackMessage.
Definition mountEffect_settle :=
  @StatsView.mountEffect_settle EbookStatsResponse fallbackMessage.
Definition refreshEffect_begin :=
  @StatsView.refreshEffect_begin EbookStatsResponse.
Definition refreshEffect_settle :=
  @StatsView.refreshEffect_settle EbookStatsResponse fallbackMessage.
Definition mountRun :=
  @StatsView.mountRun EbookStatsResponse fallbackMessage.

(** [search.toLowerCase().trim()] *)
Definition searchLower (search : string) : string :=
  JS.trim (JS.toLowerCase search).

(** [data?.users ?? []] *)
Definition usersOf (data : option EbookStatsResponse) : list UserRow :=
  match data with
  | Some d => users d
  | None => []
  end.

(** The callback given to [.filter]: one early [return false] per line. *)
Definition keeps (filter : Filter) (searchLower : string) (u : UserRow) : bool :=
  if bool_decide (filter = F_visited) && negb (visited u) then false else
  if bool_decide (filter = F_pdf) && negb (dl_pdf u) then false else
  if bool_decide (filter = F_pdf_full) && negb (dl_pdf_full u) then false else
  if bool_decide (filter = F_pdf_compressed) && negb (dl_pdf_compressed u) then false else
  if bool_decide (filter = F_epub) && negb (dl_epub u) then false else
  if bool_decide (filter = F_both) && negb (dl_pdf u && dl_epub u) then false else
  if bool_decide (filter = F_kindle) && negb (dl_kindle u) then false else
  if JS.truthy searchLower then
    let matchEmail := JS.includes (JS.toLowerCase (email u)) searchLower in
    let matchName := JS.includes (JS.toLowerCase (name u)) searchLower in
    if negb matchEmail && negb matchName then false else true
  else true.

Definition filteredUsers (data : option EbookStatsResponse) (filter : Filter)
    (search : string) : list UserRow :=
  List.filter (keeps filter (searchLower search)) (usersOf data).

(** The pagination block, as functions of [filteredUsers] and [page]. *)
Definition totalPages (filteredUsers : list UserRow) : Z :=
  Z.max 1 (JS.ceil_div (Z.of_nat (length filteredUsers)) PAGE_SIZE).

Definition safePage (filteredUsers : list UserRow) (page : Z) : Z :=
  Z.min (Z.max 1 page) (totalPages filteredUsers).

Definition startIdx (filteredUsers : list UserRow) (page : Z) : Z :=
  if Z.of_nat (length filteredUsers) =? 0 then 0
  else (safePage filteredUsers page - 1) * PAGE_SIZE + 1.

Definition endIdx (filteredUsers : list UserRow) (page : Z) : Z :=
  Z.min (Z.of_nat (length filteredUsers)) (safePage filteredUsers page * PAGE_SIZE).

Definition pagedUsers (filteredUsers : list UserRow) (page : Z) : list UserRow :=
  JS.slice filteredUsers
    ((safePage filteredUsers page - 1) * PAGE_SIZE)
    ((safePage filteredUsers page - 1) * PAGE_SIZE + PAGE_SIZE).

(** The list the table maps over, from the component state. *)
Definition displayed (data : option EbookStatsResponse) (filter : Filter)
    (search : string) (page : Z) : list UserRow :=
  pagedUsers (filteredUsers data filter search) page.

(** The updaters of the Prev and Next buttons. *)
Definition prevPage (p : Z) : Z := Z.max 1 (p - 1).
Definition nextPage (filteredUsers : list UserRow) (p : Z) : Z :=
  Z.min (totalPages filteredUsers) (p + 1).

End EbookStats.

(** ** The earlier revision of [EbookStats] with five filters and no search *)

Module EbookStatsV1.

Record UserRow := {
  id : Z;
  email : string;
  name : string;
  reward_title : string;
  visited : bool;
  dl_pdf : bool;
  dl_epub : bool
}.

#[global] Instance UserRow_eq_dec : EqDecision UserRow.
Proof. solve_decision. Defined.

Inductive Filter := F_all | F_visited | F_pdf | F_epub | F_both.

#[global] Instance Filter_eq_dec : EqDecision Filter.
Proof. solve_decision. Defined.

Definition keeps (filter : Filter) (u : UserRow) : bool :=
  if bool_decide (filter = F_all) then true else
  if bool_decide (filter = F_visited) then visited u else
  if bool_decide (filter = F_pdf) then dl_pdf u else
  if bool_decide (filter = F_epub) then dl_epub u else
  dl_pdf u && dl_epub u.

(** [users] is [data?.users ?? []]. *)
Definition filteredUsers (users : list UserRow) (filter : Filter) : list UserRow :=
  List.filter (keeps filter) users.

End EbookStatsV1.

(** ** [pages/PledgeManagerStats.tsx] *)

Module PledgeManagerStats.

Record Summary := {
  total_users : Z;
  users_with_address : Z
}.

Record PledgeManagerResponse := {
  ok : bool;
  generated_at : string;
  summary : Summary
}.

Definition fallbackMessage : string := "Failed to load stats".

Definition endpoint (method : StatsView.Method) : string :=
  match method with
  | StatsView.GET => "/api/pledge-manager/stats"
  | StatsView.POST => "/api/pledge-manager/sync"
  end.

Definition fetchStats_begin :=
  @StatsView.fetchStats_begin PledgeManagerResponse.
Definition fetchStats_settle :=
  @StatsView.fetchStats_settle PledgeManagerResponse fallbackMessage.
Definition mountEffect_settle :=
  @StatsView.mountEffect_settle PledgeManagerResponse fallbackMessage.
Definition refreshEffect_settle :=
  @StatsView.refreshEffect_settle PledgeManagerResponse fallbackMessage.

(** The value of an expression together with the divisors of the divisions
    that were evaluated to obtain it. *)
Record Evaluated := {
  value : string;
  divisors : list Z
}.

Section Percentage.
(** Double-precision arithmetic and [Number.prototype.toFixed] are those of
    the JavaScript engine. *)
Variable number : Type.
Variable ofZ : Z -> number.
Variable div mul : number -> number -> number.
Variable toFixed : number -> Z -> string.

Definition percentage (data : option PledgeManagerResponse) : Evaluated :=
  match summary <$> data with          (* [const s = data?.summary] *)
  | Some s =>
      if 0 <? total_users s then
        {| value :=
             toFixed (mul (div (ofZ (users_with_address s)) (ofZ (total_users s)))
                          (ofZ 100)) 1;
           divisors := [total_users s] |}
      else {| value := "0"; divisors := [] |}
  | None => {| value := "0"; divisors := [] |}
  end.

End Percentage.

End PledgeManagerStats.


(** ** [App.tsx]: the shell that owns the refresh counters and syncing flags *)

Module App.

Inductive Auth := checking | authed | not_authed.

#[global] Instance Auth_eq_dec : EqDecision Auth.
Proof. solve_decision. Defined.

(** The [useState] cells of [App] that decide what is rendered and when a
    view refreshes. *)
Record State := {
  auth : Auth;
  currentPath : string;
  ebookRefreshSeq : Z;
  ebookSyncing : bool;
  pledgeRefreshSeq : Z;
  pledgeSyncing : bool
}.

(** The state of the first render; [pathname] is [window.location.pathname]. *)
Definition initial (pathname : string) : State :=
  {| auth := checking; currentPath := pathname;
     ebookRefreshSeq := 0; ebookSyncing := false;
     pledgeRefreshSeq := 0; pledgeSyncing := false |}.

Definition setAuth (a : Auth) (st : State) : State :=
  {| auth := a; currentPath := currentPath st;
     ebookRefreshSeq := ebookRefreshSeq st; ebookSyncing := ebookSyncing st;
     pledgeRefreshSeq := pledgeRefreshSeq st; pledgeSyncing := pledgeSyncing st |}.

Definition setCurrentPath (p : string) (st : State) : State :=
  {| auth := auth st; currentPath := p;
     ebookRefreshSeq := ebookRefreshSeq st; ebookSyncing := ebookSyncing st;
     pledgeRefreshSeq := pledgeRefreshSeq st; pledgeSyncing := pledgeSyncing st |}.

Definition setEbookRefreshSeq (f : Z -> Z) (st : State) : State :=
  {| auth := auth st; currentPath := currentPath st;
     ebookRefreshSeq := f (ebookRefreshSeq st); ebookSyncing := ebookSyncing st;
     pledgeRefreshSeq := pledgeRefreshSeq st; pledgeSyncing := pledgeSyncing st |}.

Definition setEbookSyncing (b : bool) (st : State) : State :=
  {| auth := auth st; currentPath := currentPath st;
     ebookRefreshSeq := ebookRefreshSeq st; ebookSyncing := b;
     pledgeRefreshSeq := pledgeRefreshSeq st; pledgeSyncing := pledgeSyncing st |}.

Definition setPledgeRefreshSeq (f : Z -> Z) (st : State) : State :=
  {| auth := auth st; currentPath := currentPath st;
     ebookRefreshSeq := ebookRefreshSeq st; ebookSyncing := ebookSyncing st;
     pledgeRefreshSeq := f (pledgeRefreshSeq st); pledgeSyncing := pledgeSyncing st |}.

Definition setPledgeSyncing (b : bool) (st : State) : State :=
  {| auth := auth st; currentPath := currentPath st;
     ebookRefreshSeq := ebookRefreshSeq st; ebookSyncing := ebookSyncing st;
     pledgeRefreshSeq := pledgeRefreshSeq st; pledgeSyncing := b |}.

(** The session check run at mount, after [await apiFetch('/api/verify')]:
    both branches start with [if (cancelled) return]. *)
Definition verifyEffect_settle (cancelled : bool) (ok : bool) (st : State) : State :=
  if cancelled then st
  else setAuth (if ok then authed else not_authed) st.

Definition isEbookPage (st : State) : bool :=
  bool_decide (currentPath st = "/ebook").
Definition isPledgePage (st : State) : bool :=
  bool_decide (currentPath st = "/pledge-manager").
Definition isSubPage (st : State) : bool :=
  isEbookPage st || isPledgePage st.

Definition isSyncing (st : State) : bool :=
  if isEbookPage st then ebookSyncing st else pledgeSyncing st.

Definition handleSync (st : State) : State :=
  if isEbookPage st then
    setEbookRefreshSeq (fun n => n + 1) (setEbookSyncing true st)
  else if isPledgePage st then
    setPledgeRefreshSeq (fun n => n + 1) (setPledgeSyncing true st)
  else st.

(** The two stats views. *)
Inductive View := EbookStatsView | PledgeManagerStatsView.

#[global] Instance View_eq_dec : EqDecision View.
Proof. solve_decision. Defined.

(** Which stats view the JSX renders, if any. *)
Definition rendered (st : State) : option View :=
  if bool_decide (auth st <> authed) then None
  else if isEbookPage st then Some EbookStatsView
  else if isPledgePage st then Some PledgeManagerStatsView
  else None.

(** The Sync button is part of the tree only on a sub page of the
    authenticated shell, and carries [disabled={isSyncing}]. *)
Definition syncButtonRendered (st : State) : bool :=
  bool_decide (auth st = authed) && isSubPage st.
Definition syncButtonDisabled (st : State) : bool := isSyncing st.
Definition syncButtonClickable (st : State) : bool :=
  syncButtonRendered st && negb (syncButtonDisabled st).

(** The props handed to a view. *)
Definition refreshSeq (v : View) (st : State) : Z :=
  match v with
  | EbookStatsView => ebookRefreshSeq st
  | PledgeManagerStatsView => pledgeRefreshSeq st
  end.

Definition onRefreshComplete (v : View) (st : State) : State :=
  match v with
  | EbookStatsView => setEbookSyncing false st
  | PledgeManagerStatsView => setPledgeSyncing false st
  end.

Definition syncing (v : View) (st : State) : bool :=
  match v with
  | EbookStatsView => ebookSyncing st
  | PledgeManagerStatsView => pledgeSyncing st
  end.

End App.

(** ** The shell, the mounted view and the requests in flight

    React semantics used here: a component is mounted when it enters the
    rendered tree and unmounted when it leaves it; an effect runs after
    mount and after every commit in which one of its dependencies changed;
    before an effect re-runs, and at unmount, its previous cleanup runs.
    Setting the closure's [cancelled] flag does not abort the HTTP request:
    it stays in flight until it settles. *)

Module Portal.

Record Request := {
  owner : nat;                  (* the view instance whose effect issued it *)
  ownerView : App.View;
  method : StatsView.Method;
  cancelled : bool              (* the flag of the issuing closure *)
}.

Record System := {
  app : App.State;
  mounted : option (nat * App.View);   (* the view instance in the tree *)
  nextInstance : nat;
  inflight : list Request
}.

Inductive Event :=
| Authenticated (ok : bool)     (* verify, login or logout settles *)
| Navigate (path : string)      (* [navigate(path)] or a popstate event *)
| ClickSync                     (* a click on the Sync button *)
| Settle (n : nat).             (* the [n]-th request in flight settles *)

Definition init (pathname : string) : System :=
  {| app := App.initial pathname; mounted := None; nextInstance := 0;
     inflight := [] |}.

Definition isPOST (m : StatsView.Method) : bool :=
  match m with StatsView.POST => true | StatsView.GET => false end.

(** Cleanup of the effects of instance [i] selected by [which]. *)
Definition cancelOwned (i : nat) (which : StatsView.Method -> bool)
    (rs : list Request) : list Request :=
  map (fun r =>
         if Nat.eqb (owner r) i && which (method r) then
           {| owner := owner r; ownerView := ownerView r;
              method := method r; cancelled := true |}
         else r) rs.

(** The refresh effect of instance [i] of view [v] for the value [seq] of
    its dependency. *)
Definition runRefreshEffect (i : nat) (v : App.View) (seq : Z)
    (rs : list Request) : list Request :=
  if seq =? 0 then rs
  else rs ++ [{| owner := i; ownerView := v; method := StatsView.POST;
                 cancelled := false |}].

(** Mounting instance [i] of view [v]: the mount effect, then the refresh
    effect. *)
Definition mountView (i : nat) (v : App.View) (st : App.State)
    (rs : list Request) : list Request :=
  runRefreshEffect i v (App.refreshSeq v st)
    (rs ++ [{| owner := i; ownerView := v; method := StatsView.GET;
               cancelled := false |}]).

(** The commit that follows a change of the state of [App] to [st']. *)
Definition commit (st' : App.State) (s : System) : System :=
  match mounted s, App.rendered st' with
  | Some (i, v), Some v' =>
      if bool_decide (v = v') then
        if App.refreshSeq v (app s) =? App.refreshSeq v st' then
          {| app := st'; mounted := mounted s; nextInstance := nextInstance s;
             inflight := inflight s |}
        else
          {| app := st'; mounted := mounted s; nextInstance := nextInstance s;
             inflight :=
               runRefreshEffect i v (App.refreshSeq v st')
                 (cancelOwned i isPOST (inflight s)) |}
      else
        {| app := st'; mounted := Some (nextInstance s, v');
           nextInstance := S (nextInstance s);
           inflight :=
             mountView (nextInstance s) v' st'
               (cancelOwned i (fun _ => true) (inflight s)) |}
  | Some (i, v), None =>
      {| app := st'; mounted := None; nextInstance := nextInstance s;
         inflight := cancelOwned i (fun _ => true) (inflight s) |}
  | None, Some v' =>
      {| app := st'; mounted := Some (nextInstance s, v');
         nextInstance := S (nextInstance s);
         inflight := mountView (nextInstance s) v' st' (inflight s) |}
  | None, None =>
      {| app := st'; mounted := None; nextInstance := nextInstance s;
         inflight := inflight s |}
  end.

Definition step (s : System) (ev : Event) : System :=
  match ev with
  | Authenticated ok =>
      commit (App.setAuth (if ok then App.authed else App.not_authed) (app s)) s
  | Navigate path => commit (App.setCurrentPath path (app s)) s
  | ClickSync =>
      if App.syncButtonClickable (app s) then commit (App.handleSync (app s)) s
      else s
  | Settle n =>
      match inflight s !! n with
      | None => s
      | Some r =>
          let s' := {| app := app s; mounted := mounted s;
                       nextInstance := nextInstance s;
                       inflight := delete n (inflight s) |} in
          if isPOST (method r) && negb (cancelled r) then
            commit (App.onRefreshComplete (ownerView r) (app s')) s'
          else s'
      end
  end.

Definition run (pathname : string) (evs : list Event) : System :=
  fold_left step evs (init pathname).

(** The states the portal can reach. *)
Definition reachable (s : System) : Prop :=
  exists pathname evs, s = run pathname evs.

(** The refreshes (POST requests) in flight that were issued by the view
    instance currently mounted. *)
Definition refreshesInFlight (s : System) : nat :=
  match mounted s with
  | Some (i, _) =>
      length (List.filter (fun r => Nat.eqb (owner r) i && isPOST (method r))
                (inflight s))
  | None => 0%nat
  end.

(** The refreshes in flight that were issued by any instance of view [v]. *)
Definition refreshesOfView (v : App.View) (s : System) : nat :=
  length (List.filter
            (fun r => bool_decide (ownerView r = v) && isPOST (method r))
            (inflight s)).

End Portal.


(** ** Cookie policy of the auth gateway *)

Module CookiePolicy.

Inductive SameSite := Lax | SameSiteNone.

(** The part of the deployment configuration the policy reads: the optional
    parent domain ([COOKIE_DOMAIN]). *)
Record Config := {
  cookieDomain : option string
}.

Record CookieAttributes := {
  domain : option string;
  secure : bool;
  sameSite : SameSite
}.

(** Modelled from the spec: the backend module that sets the
    [maya_auth_token] cookie is not part of the front-end sources; the
    function follows section 3 (Cookie) and section 4.2 of the specification
    and the cookie notes of the README: a configured domain gives
    [Secure] and [SameSite=None], no domain gives a host-only, non-secure
    [SameSite=Lax] cookie. *)
Definition attributesFor (config : Config) : CookieAttributes :=
  match cookieDomain config with
  | Some d => {| domain := Some d; secure := true; sameSite := SameSiteNone |}
  | None => {| domain := None; secure := false; sameSite := Lax |}
  end.

End CookiePolicy.

(** ** Snapshot cache with single-flight refresh *)

Module SnapshotCache.

Record ReportKey := {
  kind : string;
  windowDays : Z
}.

#[global] Instance ReportKey_eq_dec : EqDecision ReportKey.
Proof. solve_decision. Defined.

#[global] Instance ReportKey_countable : Countable ReportKey.
Proof.
  refine (inj_countable' (fun k => (kind k, windowDays k))
            (fun p => {| kind := fst p; windowDays := snd p |}) _).
  intros []; reflexivity.
Defined.

Record Snapshot := {
  reportKey : ReportKey;
  generatedAt : Z;
  summary : list (string * Z);
  rows : list (string * list (string * bool))
}.

(** A caller of [refresh], identified by a number. *)
Definition Caller := nat.

(** Modelled from the spec: the server-side cache is not part of the
    front-end sources; the state follows sections 4.5 and 9 of the
    specification: the last completed snapshot per key, and a map from key
    to the flight in progress with the callers attached to it.  Two logs
    make the behaviour observable: the Aggregator recomputations started and
    the snapshots handed back to callers. *)
Record Cache := {
  stored : gmap ReportKey Snapshot;
  flights : gmap ReportKey (list Caller);
  invocations : list ReportKey;
  resolved : list (Caller * Snapshot)
}.

Definition empty : Cache :=
  {| stored := ∅; flights := ∅; invocations := []; resolved := [] |}.

(** Modelled from the spec: [get] of section 4.5 on a key that has a
    completed snapshot; it never waits for a flight in progress. *)
Definition get (key : ReportKey) (c : Cache) : option Snapshot :=
  stored c !! key.

(** Modelled from the spec: a call of [refresh] of section 4.5 arriving at
    the cache: with a flight in progress for the key the caller attaches to
    it, otherwise one Aggregator recomputation is started. *)
Definition refresh (key : ReportKey) (who : Caller) (c : Cache) : Cache :=
  match flights c !! key with
  | Some waiting =>
      {| stored := stored c;
         flights := <[key := (waiting ++ [who])]> (flights c);
         invocations := invocations c;
         resolved := resolved c |}
  | None =>
      {| stored := stored c;
         flights := <[key := [who]]> (flights c);
         invocations := invocations c ++ [key];
         resolved := resolved c |}
  end.

(** Modelled from the spec: the recomputation for [key] returns [snap]: the
    stored snapshot is swapped and every attached caller receives [snap]
    (section 4.5). *)
Definition complete (key : ReportKey) (snap : Snapshot) (c : Cache) : Cache :=
  match flights c !! key with
  | Some waiting =>
      {| stored := <[key := snap]> (stored c);
         flights := delete key (flights c);
         invocations := invocations c;
         resolved := resolved c ++ map (fun who => (who, snap)) waiting |}
  | None => c
  end.

(** Modelled from the spec: the recomputation for [key] fails; the stored
    snapshot is left untouched (section 7). *)
Definition fail (key : ReportKey) (c : Cache) : Cache :=
  {| stored := stored c;
     flights := delete key (flights c);
     invocations := invocations c;
     resolved := resolved c |}.

Inductive Event :=
| Refresh (key : ReportKey) (who : Caller)
| Complete (key : ReportKey) (snap : Snapshot)
| Fail (key : ReportKey).

Definition step (c : Cache) (ev : Event) : Cache :=
  match ev with
  | Refresh key who => refresh key who c
  | Complete key snap => complete key snap c
  | Fail key => fail key c
  end.

Definition run (evs : list Event) (c : Cache) : Cache := fold_left step evs c.

(** The callers of [refresh key] in a trace, in order of arrival. *)
Definition callersOf (key : ReportKey) (evs : list Event) : list Caller :=
  omap (fun ev =>
          match ev with
          | Refresh k who => if bool_decide (k = key) then Some who else None
          | _ => None
          end) evs.

(** The flight for [key] does not end inside the trace. *)
Definition overlapping (key : ReportKey) (evs : list Event) : Prop :=
  Forall (fun ev =>
            match ev with
            | Refresh _ _ => True
            | Complete k _ => k <> key
            | Fail k => k <> key
            end) evs.

(** Number of Aggregator recomputations started for [key] so far. *)
Definition started (key : ReportKey) (c : Cache) : nat :=
  length (List.filter (fun k => bool_decide (k = key)) (invocations c)).

End SnapshotCache.


(** ** More of [App.tsx]: service links, login and logout *)

Module Shell.

(** [s.split(sep)] for a separator of one code unit: the pieces between
    the separators, empty pieces included. *)
Fixpoint split (sep : ascii) (s : string) : list string :=
  match s with
  | EmptyString => [EmptyString]
  | String c r =>
      if Ascii.eqb c sep then EmptyString :: split sep r
      else match split sep r with
           | p :: ps => String c p :: ps
           | [] => [String c EmptyString]
           end
  end.

(** [parts.slice(start)]: the end index defaults to the length. *)
Definition sliceFrom {A} (l : list A) (start : Z) : list A :=
  JS.slice l start (Z.of_nat (length l)).

(** The non-empty labels of a host name: [host.split('.').filter(Boolean)]. *)
Definition labels (host : string) : list string :=
  List.filter JS.truthy (split "." host).

(** [deriveServiceSuffix]; [hostname] is [window.location.hostname]. *)
Definition deriveServiceSuffix (hostname : string) : option string :=
  if bool_decide (hostname = "localhost") || bool_decide (hostname = "127.0.0.1")
  then None
  else
    let parts := labels hostname in
    if Z.of_nat (length parts) <? 3 then None
    else Some (String.concat "." (sliceFrom parts (-3))).

Record ExternalCard := {
  title : string;
  description : string;
  subdomain : option string;
  url : option string;
  badge : option string;
  backgroundSrc : option string
}.

(** Truthiness of an optional string: [undefined], [null] and the empty
    string are falsy. *)
Definition truthyOpt (o : option string) : bool :=
  match o with
  | Some s => JS.truthy s
  | None => false
  end.

(** The [href] computed for an external card. *)
Definition externalHref (hostname : string) (card : ExternalCard) : string :=
  let suffix := deriveServiceSuffix hostname in
  if truthyOpt (url card) then default "" (url card)
  else if truthyOpt suffix && truthyOpt (subdomain card) then
    "https://" +:+ default "" (subdomain card) +:+ "." +:+ default "" suffix
  else "#".

(** The [disabled] computed for an external card. *)
Definition externalDisabled (hostname : string) (card : ExternalCard) : bool :=
  negb (truthyOpt (url card)) && negb (truthyOpt (deriveServiceSuffix hostname)).

(** The [target] attribute of the card's anchor. *)
Definition externalTarget (hostname : string) (card : ExternalCard) : option string :=
  if externalDisabled hostname card then None else Some "_blank".

Record VerifyResponse := {
  ok : bool;
  sub : option string;
  exp : option Z
}.

(** The body [{ ok }] of the login and logout responses. *)
Record OkResponse := {
  okFlag : bool
}.

(** The [useState] cells of [App] that belong to the login form. *)
Record Login := {
  auth : App.Auth;
  session : option VerifyResponse;
  password : string;
  busy : bool;
  error : option string
}.

Definition initial : Login :=
  {| auth := App.checking; session := None; password := ""; busy := false;
     error := None |}.

Definition setAuth (a : App.Auth) (st : Login) : Login :=
  {| auth := a; session := session st; password := password st;
     busy := busy st; error := error st |}.
Definition setSession (v : option VerifyResponse) (st : Login) : Login :=
  {| auth := auth st; session := v; password := password st;
     busy := busy st; error := error st |}.
Definition setPassword (p : string) (st : Login) : Login :=
  {| auth := auth st; session := session st; password := p;
     busy := busy st; error := error st |}.
Definition setBusy (b : bool) (st : Login) : Login :=
  {| auth := auth st; session := session st; password := password st;
     busy := b; error := error st |}.
Definition setError (e : option string) (st : Login) : Login :=
  {| auth := auth st; session := session st; password := password st;
     busy := busy st; error := e |}.

(** The session check at mount, after its [await], with all its setters. *)
Definition verifyEffect_settle (cancelled : bool)
    (v : StatsView.Outcome VerifyResponse) (st : Login) : Login :=
  match v with
  | StatsView.Resolved r =>
      if cancelled then st else setAuth App.authed (setSession (Some r) st)
  | StatsView.Rejected _ =>
      if cancelled then st else setAuth App.not_authed (setSession None st)
  end.

(** [onLogin] up to its first [await]. *)
Definition onLogin_begin (st : Login) : Login :=
  setError None (setBusy true st).

(** The [catch] clause of [onLogin]. *)
Definition onLogin_catch (e : StatsView.Thrown) (st : Login) : Login :=
  setError (Some (StatsView.messageOf "Login failed" e))
    (setAuth App.not_authed (setSession None st)).

(** [onLogin] after its awaits: [login] is the outcome of the POST to
    [/api/login]; [verify] is the outcome of the GET of [/api/verify], which
    is only issued when the POST resolved. *)
Definition onLogin_settle (login : StatsView.Outcome OkResponse)
    (verify : StatsView.Outcome VerifyResponse) (st : Login) : Login :=
  setBusy false
    match login with
    | StatsView.Rejected e => onLogin_catch e st
    | StatsView.Resolved _ =>
        match verify with
        | StatsView.Resolved v =>
            setPassword "" (setAuth App.authed (setSession (Some v) st))
        | StatsView.Rejected e => onLogin_catch e st
        end
    end.

Definition onLogin login verify (st : Login) : Login :=
  onLogin_settle login verify (onLogin_begin st).

(** [onLogout]: the [catch] clause is empty and the [finally] clause clears
    the local state. *)
Definition onLogout_begin (st : Login) : Login :=
  setError None (setBusy true st).

Definition onLogout_settle (logout : StatsView.Outcome OkResponse) (st : Login) : Login :=
  let st1 := match logout with
             | StatsView.Resolved _ => st
             | StatsView.Rejected _ => st
             end in
  setBusy false (setAuth App.not_authed (setSession None st1)).

Definition onLogout logout (st : Login) : Login :=
  onLogout_settle logout (onLogout_begin st).

(** [disabled={busy || password.trim().length === 0}] of the Enter button. *)
Definition loginDisabled (st : Login) : bool :=
  busy st || (Z.of_nat (String.length (JS.trim (password st))) =? 0).

(** The login page is rendered instead of the shell. *)
Definition loginPageShown (st : Login) : bool :=
  bool_decide (auth st <> App.authed).

End Shell.

(** ** The first revision of [EbookStats]: a local Sync button *)

Module EbookStatsV0.

Record CountRow := {
  label : string;
  count : Z
}.

Record EbookStatsResponse := {
  ok : bool;
  generated_at : string;
  window_days : Z;
  by_format : list CountRow;
  by_event_type : list CountRow;
  top_countries : list CountRow
}.

Definition fallbackMessage : string := "Failed to load eBook stats".

(** The component while it is mounted: its state cells and the requests it
    has issued that have not settled. *)
Record View := {
  world : StatsView.World EbookStatsResponse;
  syncing : bool;
  getsInFlight : nat;
  postsInFlight : nat
}.

(** The state right after mount: the mount effect has issued its GET. *)
Definition mount : View :=
  {| world := StatsView.mountEffect_begin StatsView.initialWorld;
     syncing := false; getsInFlight := 1; postsInFlight := 0 |}.

(** [disabled={syncing || loading}] of the Sync button. *)
Definition syncDisabled (v : View) : bool :=
  syncing v || StatsView.loading (StatsView.hooks (world v)).

Inductive Event :=
| ClickSync
| SettleGET (o : StatsView.Outcome EbookStatsResponse)
| SettlePOST (o : StatsView.Outcome EbookStatsResponse).

(** [onSync] is [setSyncing(true); await fetchStats('POST'); setSyncing(false)]. *)
Definition step (v : View) (ev : Event) : View :=
  match ev with
  | ClickSync =>
      if syncDisabled v then v
      else {| world := StatsView.fetchStats_begin (world v); syncing := true;
              getsInFlight := getsInFlight v;
              postsInFlight := S (postsInFlight v) |}
  | SettleGET o =>
      match getsInFlight v with
      | O => v
      | S g =>
          {| world := StatsView.mountEffect_settle fallbackMessage false o (world v);
             syncing := syncing v; getsInFlight := g;
             postsInFlight := postsInFlight v |}
      end
  | SettlePOST o =>
      match postsInFlight v with
      | O => v
      | S p =>
          {| world := StatsView.fetchStats_settle fallbackMessage o (world v);
             syncing := false; getsInFlight := getsInFlight v;
             postsInFlight := p |}
      end
  end.

Definition run (evs : list Event) : View := fold_left step evs mount.

End EbookStatsV0.

(** ** The table controls of [EbookStats]: filter, search box and page *)

Module EbookStatsControls.

Record Controls := {
  data : option EbookStats.EbookStatsResponse;
  filter : EbookStats.Filter;
  search : string;
  page : Z
}.

Definition initial : Controls :=
  {| data := None; filter := EbookStats.F_all; search := ""; page := 1 |}.

Definition filteredUsers (c : Controls) : list EbookStats.UserRow :=
  EbookStats.filteredUsers (data c) (filter c) (search c).

Definition safePage (c : Controls) : Z := EbookStats.safePage (filteredUsers c) (page c).
Definition totalPages (c : Controls) : Z := EbookStats.totalPages (filteredUsers c).

(** The table, and with it the Prev and Next buttons, is rendered only for
    a non-empty list; [disabled={safePage <= 1}] and
    [disabled={safePage >= totalPages}]. *)
Definition tableShown (c : Controls) : bool :=
  0 <? Z.of_nat (length (filteredUsers c)).
Definition prevEnabled (c : Controls) : bool :=
  tableShown c && negb (safePage c <=? 1).
Definition nextEnabled (c : Controls) : bool :=
  tableShown c && negb (totalPages c <=? safePage c).

Inductive Event :=
| SetFilter (f : EbookStats.Filter)      (* a tile or a chip is clicked *)
| SetSearch (s : string)                 (* the search box changes *)
| SetData (d : option EbookStats.EbookStatsResponse)   (* [fetchStats] stores a result *)
| ClickPrev
| ClickNext.

(** Whether [data?.users] is a different value after [setData]: [undefined]
    stays [undefined]; the array of a new response is a new object. *)
Definition usersChanged (old new : option EbookStats.EbookStatsResponse) : bool :=
  match old, new with
  | None, None => false
  | _, _ => true
  end.

(** The page-reset effect with dependencies [filter, search, data?.users]. *)
Definition pageResetEffect (changed : bool) (c : Controls) : Controls :=
  if changed then
    {| data := data c; filter := filter c; search := search c; page := 1 |}
  else c.

Definition step (c : Controls) (ev : Event) : Controls :=
  match ev with
  | SetFilter f =>
      pageResetEffect (bool_decide (f <> filter c))
        {| data := data c; filter := f; search := search c; page := page c |}
  | SetSearch s =>
      pageResetEffect (bool_decide (s <> search c))
        {| data := data c; filter := filter c; search := s; page := page c |}
  | SetData d =>
      pageResetEffect (usersChanged (data c) d)
        {| data := d; filter := filter c; search := search c; page := page c |}
  | ClickPrev =>
      if prevEnabled c then
        {| data := data c; filter := filter c; search := search c;
           page := EbookStats.prevPage (page c) |}
      else c
  | ClickNext =>
      if nextEnabled c then
        {| data := data c; filter := filter c; search := search c;
           page := EbookStats.nextPage (filteredUsers c) (page c) |}
      else c
  end.

Definition run (evs : list Event) : Controls := fold_left step evs initial.

End EbookStatsControls.

(** ** What the portal keeps true *)

Module PortalInvariant.

(** A refresh whose closure has not been cancelled: when it settles,
    [onRefreshComplete] is called. *)
Definition liveRefresh (r : Portal.Request) : bool :=
  Portal.isPOST (Portal.method r) && negb (Portal.cancelled r).

Record Inv (s : Portal.System) : Prop := {
  (* the mounted view is the one the shell renders *)
  inv_mounted : snd <$> Portal.mounted s = App.rendered (Portal.app s);
  (* a request whose closure is not cancelled belongs to the mounted instance *)
  inv_live : forall r, r ∈ Portal.inflight s -> Portal.cancelled r = false ->
             Portal.mounted s = Some (Portal.owner r, Portal.ownerView r);
  (* counters are never negative, and positive while their flag is set *)
  inv_seq : forall v, 0 <= App.refreshSeq v (Portal.app s) /\
            (App.syncing v (Portal.app s) = true -> 0 < App.refreshSeq v (Portal.app s));
  (* at most one refresh in flight is not cancelled *)
  inv_one : (length (List.filter liveRefresh (Portal.inflight s)) <= 1)%nat;
  (* while the flag of the mounted view is set, such a refresh is in flight *)
  inv_flag : forall i v, Portal.mounted s = Some (i, v) ->
             App.syncing v (Portal.app s) = true ->
             exists r, r ∈ Portal.inflight s /\ Portal.owner r = i /\ liveRefresh r = true
}.

End PortalInvariant.


(** ** What the stats views render *)

Module Render.

(** [{error ? <div className="errorBox">{error}</div> : null}]: the box
    is rendered for a non-empty message. *)
Definition errorBoxShown {Resp} (h : StatsView.Hooks Resp) : bool :=
  match StatsView.error h with
  | Some m => JS.truthy m
  | None => false
  end.

(** [{loading ? <div>Loading...</div> : <>...</>}] *)
Definition bodyShown {Resp} (h : StatsView.Hooks Resp) : bool :=
  negb (StatsView.loading h).

(** The characters of a string that [trim] treats as blank. *)
Definition blank (s : string) : Prop :=
  Forall (fun c => JS.is_space c = true) (list_ascii_of_string s).

End Render.


(** ** Host names *)

Module HostNames.

(** A string without the separator [sep]. *)
Definition free (sep : ascii) (x : string) : Prop :=
  Forall (fun c => c <> sep) (list_ascii_of_string x).

(** [x.h]: the host [h] under the label [x]. *)
Definition under (x h : string) : string := x +:+ "." +:+ h.

End HostNames.


(** ** Concrete inputs used by the examples *)

Module Samples.

Definition summary0 : EbookStats.UserSummary :=
  {| EbookStats.count_visited := 2; EbookStats.count_pdf := 2;
     EbookStats.count_pdf_full := 1; EbookStats.count_pdf_compressed := 1;
     EbookStats.count_epub := 2; EbookStats.count_both := 1;
     EbookStats.count_pdf_only := 1; EbookStats.count_epub_only := 1;
     EbookStats.count_kindle := 0 |}.

Definition user (i : Z) (mail nm : string) (v p e : bool) : EbookStats.UserRow :=
  {| EbookStats.id := i; EbookStats.email := mail; EbookStats.name := nm;
     EbookStats.reward_title := "Backer";
     EbookStats.visited := v; EbookStats.dl_pdf := p;
     EbookStats.dl_pdf_full := p; EbookStats.dl_pdf_compressed := false;
     EbookStats.dl_epub := e; EbookStats.dl_kindle := false |}.

Definition ada := user 1 "Ada@Example.com" "Ada" true true true.
Definition bob := user 2 "bob@example.com" "Bob" true true false.
Definition cy := user 3 "cy@example.com" "Cy" false false true.

Definition stats0 : EbookStats.EbookStatsResponse :=
  {| EbookStats.ok := true; EbookStats.generated_at := "2026-01-05T10:00:00Z";
     EbookStats.window_days := 30; EbookStats.user_summary := summary0;
     EbookStats.users := [ada; bob; cy] |}.

(** A view that has loaded [stats0] and is showing it. *)
Definition readyWorld : StatsView.World EbookStats.EbookStatsResponse :=
  {| StatsView.hooks :=
       {| StatsView.data := Some stats0; StatsView.loading := false;
          StatsView.error := None |};
     StatsView.spy := [] |}.

(** The server answers 500 with a plain-text body. *)
Definition storeDown : StatsView.Exchange EbookStats.EbookStatsResponse :=
  StatsView.Responded
    {| StatsView.res_ok := false; StatsView.res_status := 500%N;
       StatsView.res_text := Some "event store unreachable";
       StatsView.res_json := inr "Unexpected token" |}.

Definition pledge0 : PledgeManagerStats.PledgeManagerResponse :=
  {| PledgeManagerStats.ok := true;
     PledgeManagerStats.generated_at := "2026-01-05T10:00:00Z";
     PledgeManagerStats.summary :=
       {| PledgeManagerStats.total_users := 8;
          PledgeManagerStats.users_with_address := 3 |} |}.

(** Forty-five rows, for the pagination examples. *)
Definition manyUsers : list EbookStats.UserRow :=
  map (fun i => user (Z.of_nat i) "u@example.com" "U" true false false) (seq 0 45).

(** A reference rendering of [toFixed] on exact non-negative rationals:
    round half up at the requested digit, then print the integer part, a
    point and the fraction digits padded with zeros on the left. *)
Definition toFixedQ (q : Q) (digits : Z) : string :=
  let scale := 10 ^ digits in
  let n := Qfloor (Qplus (Qmult q (inject_Z scale)) (1 # 2)) in
  let frac := pretty (n mod scale) in
  if digits =? 0 then pretty n
  else pretty (n / scale) +:+ "."
       +:+ String.concat "" (replicate (Z.to_nat digits - String.length frac) "0")
       +:+ frac.

Definition ebook30 : SnapshotCache.ReportKey :=
  {| SnapshotCache.kind := "ebook"; SnapshotCache.windowDays := 30 |}.
Definition pledge30 : SnapshotCache.ReportKey :=
  {| SnapshotCache.kind := "pledge-manager"; SnapshotCache.windowDays := 30 |}.

Definition snapshotOf (key : SnapshotCache.ReportKey) (at_ : Z) : SnapshotCache.Snapshot :=
  {| SnapshotCache.reportKey := key; SnapshotCache.generatedAt := at_;
     SnapshotCache.summary := [("visited", 1); ("pdf", 1); ("epub", 1); ("both", 0)];
     SnapshotCache.rows :=
       [("A", [("visited", true); ("pdf", true); ("epub", false)]);
        ("B", [("visited", false); ("pdf", false); ("epub", true)])] |}.

(** Three callers refresh the ebook report while a pledge-manager refresh
    starts and completes in between. *)
Definition threeSyncClicks : list SnapshotCache.Event :=
  [SnapshotCache.Refresh ebook30 1%nat;
   SnapshotCache.Refresh pledge30 7%nat;
   SnapshotCache.Refresh ebook30 2%nat;
   SnapshotCache.Complete pledge30 (snapshotOf pledge30 100);
   SnapshotCache.Refresh ebook30 3%nat].

Definition percentageQ :=
  PledgeManagerStats.percentage Q inject_Z Qdiv Qmult toFixedQ.

End Samples.

(** * Properties *)

(** ** Failure handling of [fetchStats] *)

Section FetchFailure.
Context {Resp : Type}.
Variable fallbackMessage : string.
Implicit Types (w : StatsView.World Resp) (e : StatsView.Thrown).

Lemma fetchStats_rejected_hooks w e :
  StatsView.hooks
    (StatsView.fetchStats_settle fallbackMessage (StatsView.Rejected e)
       (StatsView.fetchStats_begin w))
  = {| StatsView.data := None;
       StatsView.loading := StatsView.loading (StatsView.hooks w);
       StatsView.error := Some (StatsView.messageOf fallbackMessage e) |}.
Proof. reflexivity. Qed.

Lemma mountEffect_rejected_hooks w e :
  StatsView.hooks
    (StatsView.mountEffect_settle fallbackMessage false (StatsView.Rejected e)
       (StatsView.mountEffect_begin w))
  = {| StatsView.data := None; StatsView.loading := false;
       StatsView.error := Some (StatsView.messageOf fallbackMessage e) |}.
Proof. reflexivity. Qed.

Lemma refreshEffect_rejected w e :
  StatsView.refreshEffect_settle fallbackMessage false (StatsView.Rejected e)
    (StatsView.fetchStats_begin w)
  = (StatsView.fetchStats_settle fallbackMessage (StatsView.Rejected e)
       (StatsView.fetchStats_begin w), true).
Proof. reflexivity. Qed.

End FetchFailure.

(** C1, as stated, fails: a view that shows [stats0] and whose forced refresh
    is answered with a 500 ends with no snapshot at all. *)
Lemma fetch_failure_discards_snapshot :
  StatsView.data (StatsView.hooks Samples.readyWorld) = Some Samples.stats0 /\
  StatsView.apiFetch Samples.storeDown
    = StatsView.Rejected (StatsView.ErrorObject "event store unreachable") /\
  StatsView.data
    (StatsView.hooks
       (EbookStats.fetchStats_settle (StatsView.apiFetch Samples.storeDown)
          (EbookStats.fetchStats_begin Samples.readyWorld)))
  <> Some Samples.stats0.
Proof. repeat split; discriminate. Qed.

(** C1 (amended): when the request of [fetchStats] fails, in [EbookStats]
    and in [PledgeManagerStats] alike, the snapshot held by the view is
    cleared ([data] becomes [null]) and [error] holds the message of the
    failure, whatever the view held before; the view still leaves its
    loading or syncing state: the mount effect, when not cancelled, sets
    [loading] to [false], and the refresh effect, when not cancelled, calls
    [onRefreshComplete]. *)
Theorem fetch_failure_clears_data_and_sets_error :
  (forall w e,
     let w' := EbookStats.fetchStats_settle (StatsView.Rejected e)
                 (EbookStats.fetchStats_begin w) in
     StatsView.data (StatsView.hooks w') = None /\
     StatsView.error (StatsView.hooks w')
       = Some (StatsView.messageOf EbookStats.fallbackMessage e) /\
     StatsView.loading
       (StatsView.hooks
          (EbookStats.mountEffect_settle false (StatsView.Rejected e)
             (StatsView.mountEffect_begin w))) = false /\
     snd (EbookStats.refreshEffect_settle false (StatsView.Rejected e)
            (EbookStats.fetchStats_begin w)) = true) /\
  (forall w e,
     let w' := PledgeManagerStats.fetchStats_settle (StatsView.Rejected e)
                 (PledgeManagerStats.fetchStats_begin w) in
     StatsView.data (StatsView.hooks w') = None /\
     StatsView.error (StatsView.hooks w')
       = Some (StatsView.messageOf PledgeManagerStats.fallbackMessage e) /\
     StatsView.loading
       (StatsView.hooks
          (PledgeManagerStats.mountEffect_settle false (StatsView.Rejected e)
             (StatsView.mountEffect_begin w))) = false /\
     snd (PledgeManagerStats.refreshEffect_settle false (StatsView.Rejected e)
            (PledgeManagerStats.fetchStats_begin w)) = true).
Proof.
  split; intros w e; cbn zeta.
  - unfold EbookStats.fetchStats_settle, EbookStats.fetchStats_begin,
      EbookStats.mountEffect_settle, EbookStats.refreshEffect_settle.
    rewrite fetchStats_rejected_hooks, mountEffect_rejected_hooks,
      refreshEffect_rejected.
    repeat split.
  - unfold PledgeManagerStats.fetchStats_settle,
      PledgeManagerStats.fetchStats_begin,
      PledgeManagerStats.mountEffect_settle,
      PledgeManagerStats.refreshEffect_settle.
    rewrite fetchStats_rejected_hooks, mountEffect_rejected_hooks,
      refreshEffect_rejected.
    repeat split.
Qed.

(** ** Cancellation of the mount effect *)

Section MountCancellation.
Context {Resp : Type}.
Variable fallbackMessage : string.
Implicit Types (w : StatsView.World Resp).

(** After mount and unmount, whatever settles the request, the setters of
    [fetchStats] still run; only [setLoading(false)] is skipped. *)
Lemma unmount_then_settle w o :
  StatsView.mutationsAfterCancel
    (StatsView.mountRun fallbackMessage
       [StatsView.Unmount; StatsView.Settles o] w)
  = match o with
    | StatsView.Resolved stats => [StatsView.SetData (Some stats)]
    | StatsView.Rejected e =>
        [StatsView.SetData None;
         StatsView.SetError (Some (StatsView.messageOf fallbackMessage e))]
    end.
Proof.
  unfold StatsView.mountRun, StatsView.mutationsAfterCancel. cbn.
  destruct o as [stats | e]; cbn.
  - apply drop_app_length.
  - set (l := (StatsView.spy w ++ _) ++ _).
    rewrite <- (app_assoc l). apply drop_app_length.
Qed.

End MountCancellation.

(** The session check of [App] guards every setter with its flag. *)
Lemma verifyEffect_cancelled_is_silent ok st :
  App.verifyEffect_settle true ok st = st.
Proof. reflexivity. Qed.

(** C2: the code at the failing execution.  The view mounts, is unmounted
    (the cleanup sets [cancelled]) and only then the GET request settles:
    [fetchStats] still calls [setData] (and [setError] on failure) after the
    flag is set, so the list of setter calls made after cancellation is not
    empty; only [setLoading(false)] is suppressed. *)
Theorem mount_effect_mutates_after_cancel :
  forall (w : StatsView.World EbookStats.EbookStatsResponse)
         (o : StatsView.Outcome EbookStats.EbookStatsResponse),
    let after := StatsView.mutationsAfterCancel
                   (EbookStats.mountRun [StatsView.Unmount; StatsView.Settles o] w) in
    after <> [] /\
    ~ In (StatsView.SetLoading false) after /\
    after = match o with
            | StatsView.Resolved stats => [StatsView.SetData (Some stats)]
            | StatsView.Rejected e =>
                [StatsView.SetData None;
                 StatsView.SetError
                   (Some (StatsView.messageOf EbookStats.fallbackMessage e))]
            end.
Proof.
  intros w o after. subst after. unfold EbookStats.mountRun.
  rewrite unmount_then_settle.
  destruct o as [stats | e]; repeat split; try discriminate;
    cbn; intuition discriminate.
Qed.

(** ** Filtering *)

Section ListFacts.
Context {A : Type}.
Implicit Types (l k : list A) (p q : A -> bool).

Lemma filter_sublist p l : List.filter p l `sublist_of` l.
Proof.
  induction l as [| x l IH]; cbn.
  - constructor.
  - destruct (p x); [apply sublist_skip | apply sublist_cons]; exact IH.
Qed.

Lemma filter_pointwise p q l :
  (forall x, p x = q x) -> List.filter p l = List.filter q l.
Proof.
  intros E. induction l as [| x l IH]; cbn; [reflexivity |].
  rewrite E, IH. reflexivity.
Qed.

Lemma filter_everything l : List.filter (fun _ => true) l = l.
Proof. induction l as [| x l IH]; cbn; congruence. Qed.

Lemma filter_andb p q l :
  List.filter (fun x => p x && q x) l = List.filter p (List.filter q l).
Proof.
  induction l as [| x l IH]; cbn; [reflexivity |].
  destruct (q x); cbn; rewrite ?andb_true_r, ?andb_false_r.
  - destruct (p x); congruence.
  - exact IH.
Qed.

Lemma elem_of_bool_filter p l x : x ∈ List.filter p l <-> x ∈ l /\ p x = true.
Proof. rewrite !list_elem_of_In. apply List.filter_In. Qed.

(** Intersecting two filtered copies of a list is filtering by the
    conjunction. *)
Lemma intersection_of_filters `{!EqDecision A} p q l l' :
  (forall x, x ∈ l -> x ∈ l') ->
  list_intersection (List.filter p l) (List.filter q l')
  = List.filter (fun x => p x && q x) l.
Proof.
  induction l as [| x l IH]; intros Hsub; cbn; [reflexivity |].
  assert (Hl : forall y, y ∈ l -> y ∈ l') by (intros y Hy; apply Hsub; now right).
  specialize (IH Hl).
  destruct (p x) eqn:Hp; cbn; [| exact IH].
  destruct (decide_rel elem_of x (List.filter q l')) as [Hin | Hout].
  - apply elem_of_bool_filter in Hin as [_ Hq]. rewrite Hq, IH. reflexivity.
  - destruct (q x) eqn:Hq; [| exact IH].
    exfalso. apply Hout, elem_of_bool_filter.
    split; [apply Hsub; now left | exact Hq].
Qed.

(** [slice] between two non-negative indices in order is drop-then-take. *)
Lemma slice_take_drop l (a b : Z) :
  0 <= a <= b ->
  JS.slice l a b = take (Z.to_nat (b - a)) (drop (Z.to_nat a) l).
Proof.
  intros Hab. unfold JS.slice.
  destruct (Z.ltb_spec a 0) as [? | _]; [lia |].
  destruct (Z.ltb_spec b 0) as [? | _]; [lia |].
  destruct (Z_le_gt_dec (Z.of_nat (length l)) a) as [Hge | Hlt].
  - rewrite Z.min_r by lia.
    rewrite !drop_ge by lia. now rewrite !take_nil.
  - rewrite (Z.min_l a) by lia.
    destruct (Z_le_gt_dec b (Z.of_nat (length l))) as [Hb | Hb].
    + now rewrite Z.min_l by lia.
    + rewrite Z.min_r by lia.
      rewrite !take_ge; [reflexivity | |]; rewrite length_drop; lia.
Qed.

End ListFacts.

Lemma searchLower_empty : EbookStats.searchLower "" = "".
Proof. reflexivity. Qed.

Lemma keeps_all_no_search u : EbookStats.keeps EbookStats.F_all "" u = true.
Proof. reflexivity. Qed.

Lemma keeps_pdf s u :
  EbookStats.keeps EbookStats.F_pdf s u
  = EbookStats.dl_pdf u && EbookStats.keeps EbookStats.F_all s u.
Proof. unfold EbookStats.keeps; cbn. now destruct (EbookStats.dl_pdf u). Qed.

Lemma keeps_epub s u :
  EbookStats.keeps EbookStats.F_epub s u
  = EbookStats.dl_epub u && EbookStats.keeps EbookStats.F_all s u.
Proof. unfold EbookStats.keeps; cbn. now destruct (EbookStats.dl_epub u). Qed.

Lemma keeps_both s u :
  EbookStats.keeps EbookStats.F_both s u
  = (EbookStats.dl_pdf u && EbookStats.dl_epub u)
    && EbookStats.keeps EbookStats.F_all s u.
Proof.
  unfold EbookStats.keeps; cbn.
  now destruct (EbookStats.dl_pdf u), (EbookStats.dl_epub u).
Qed.

Lemma keeps_both_pdf_epub s u :
  EbookStats.keeps EbookStats.F_both s u
  = EbookStats.keeps EbookStats.F_pdf s u && EbookStats.keeps EbookStats.F_epub s u.
Proof.
  rewrite keeps_both, keeps_pdf, keeps_epub.
  destruct (EbookStats.dl_pdf u), (EbookStats.dl_epub u),
    (EbookStats.keeps EbookStats.F_all s u); reflexivity.
Qed.

(** C4: in both revisions of the view the list shown under the filter
    'both' is computed from the rows' [dl_pdf] and [dl_epub] flags alone: it
    consists of exactly the rows (passing the search, where there is one)
    whose two flags are true, and it is the intersection of the list shown
    under 'pdf' and the list shown under 'epub'. *)
Theorem both_filter_is_conjunction :
  (forall data search,
     let both := EbookStats.filteredUsers data EbookStats.F_both search in
     let pdf := EbookStats.filteredUsers data EbookStats.F_pdf search in
     let epub := EbookStats.filteredUsers data EbookStats.F_epub search in
     both = List.filter (fun u => EbookStats.dl_pdf u && EbookStats.dl_epub u)
              (EbookStats.filteredUsers data EbookStats.F_all search) /\
     both = list_intersection pdf epub /\
     (forall u, u ∈ both <-> u ∈ pdf /\ u ∈ epub)) /\
  (forall data u,
     u ∈ EbookStats.filteredUsers data EbookStats.F_both ""
     <-> u ∈ EbookStats.usersOf data /\
         EbookStats.dl_pdf u = true /\ EbookStats.dl_epub u = true) /\
  (forall users,
     let both := EbookStatsV1.filteredUsers users EbookStatsV1.F_both in
     let pdf := EbookStatsV1.filteredUsers users EbookStatsV1.F_pdf in
     let epub := EbookStatsV1.filteredUsers users EbookStatsV1.F_epub in
     both = List.filter (fun u => EbookStatsV1.dl_pdf u && EbookStatsV1.dl_epub u) users /\
     both = list_intersection pdf epub /\
     (forall u, u ∈ both <-> u ∈ users /\
         EbookStatsV1.dl_pdf u = true /\ EbookStatsV1.dl_epub u = true)).
Proof.
  split; [| split].
  - intros data search both pdf epub.
    assert (Hint : both = list_intersection pdf epub).
    { subst both pdf epub. unfold EbookStats.filteredUsers.
      rewrite intersection_of_filters by auto.
      apply filter_pointwise, keeps_both_pdf_epub. }
    split; [| split]; [| exact Hint |].
    + subst both. unfold EbookStats.filteredUsers.
      rewrite <- filter_andb. apply filter_pointwise, keeps_both.
    + intros u. rewrite Hint. apply list_elem_of_intersection.
  - intros data u. unfold EbookStats.filteredUsers.
    rewrite elem_of_bool_filter, searchLower_empty, keeps_both,
      keeps_all_no_search, andb_true_r, andb_true_iff.
    reflexivity.
  - intros users both pdf epub. subst both pdf epub.
    unfold EbookStatsV1.filteredUsers.
    split; [| split].
    + reflexivity.
    + rewrite intersection_of_filters by auto. reflexivity.
    + intros u. rewrite elem_of_bool_filter.
      change (EbookStatsV1.keeps EbookStatsV1.F_both u)
        with (EbookStatsV1.dl_pdf u && EbookStatsV1.dl_epub u).
      rewrite andb_true_iff. reflexivity.
Qed.

(** ** Pagination *)

Lemma ceil_div_bounds (n d : Z) :
  0 < d -> d * (JS.ceil_div n d - 1) < n <= d * JS.ceil_div n d.
Proof.
  intros Hd. unfold JS.ceil_div.
  pose proof (Z.div_mod (- n) d ltac:(lia)) as E.
  pose proof (Z.mod_pos_bound (- n) d Hd) as B.
  lia.
Qed.

Section Pagination.
Variable fu : list EbookStats.UserRow.
Variable page : Z.

Local Abbreviation len := (Z.of_nat (length fu)).
Local Abbreviation sp := (EbookStats.safePage fu page).

Lemma totalPages_ge_1 : 1 <= EbookStats.totalPages fu.
Proof. unfold EbookStats.totalPages. lia. Qed.

Lemma safePage_range : 1 <= sp <= EbookStats.totalPages fu.
Proof.
  unfold EbookStats.safePage.
  pose proof totalPages_ge_1. lia.
Qed.

(** The first row of the page exists, unless there is no row at all. *)
Lemma page_offset_range :
  0 <= (sp - 1) * EbookStats.PAGE_SIZE <= len /\
  (0 < len -> (sp - 1) * EbookStats.PAGE_SIZE < len).
Proof.
  pose proof safePage_range as Hsp.
  unfold EbookStats.totalPages in Hsp.
  pose proof (ceil_div_bounds len EbookStats.PAGE_SIZE ltac:(reflexivity)) as Hc.
  unfold EbookStats.PAGE_SIZE in *.
  lia.
Qed.

Lemma pagedUsers_take_drop :
  EbookStats.pagedUsers fu page
  = take 20 (drop (Z.to_nat ((sp - 1) * EbookStats.PAGE_SIZE)) fu).
Proof.
  unfold EbookStats.pagedUsers.
  pose proof page_offset_range as [H _].
  rewrite slice_take_drop by (unfold EbookStats.PAGE_SIZE in *; lia).
  f_equal. unfold EbookStats.PAGE_SIZE. lia.
Qed.

Lemma pagedUsers_length :
  Z.of_nat (length (EbookStats.pagedUsers fu page))
  = Z.min EbookStats.PAGE_SIZE (len - (sp - 1) * EbookStats.PAGE_SIZE).
Proof.
  rewrite pagedUsers_take_drop, length_take, length_drop.
  pose proof page_offset_range as [H _].
  unfold EbookStats.PAGE_SIZE in *. lia.
Qed.

Lemma pagedUsers_sublist : EbookStats.pagedUsers fu page `sublist_of` fu.
Proof.
  rewrite pagedUsers_take_drop.
  etransitivity; [apply sublist_take | apply sublist_drop].
Qed.

End Pagination.

(** C5: whatever the filter, the search text and the page number, the rows
    handed to the table are a subsequence of the [users] array of the
    snapshot held by the view (of the empty array when there is none); with
    the filter 'all' and an empty search box the filtered list is the whole
    array; and the page is cut out of the filtered list on the client, by
    [slice], as the at most twenty rows that follow the first
    [(safePage - 1) * PAGE_SIZE]. *)
Theorem displayed_rows_come_from_snapshot :
  forall data filter search page,
    EbookStats.displayed data filter search page
      `sublist_of` EbookStats.usersOf data /\
    EbookStats.filteredUsers data EbookStats.F_all "" = EbookStats.usersOf data /\
    EbookStats.displayed data filter search page
    = take 20
        (drop (Z.to_nat
                 ((EbookStats.safePage (EbookStats.filteredUsers data filter search) page - 1)
                  * EbookStats.PAGE_SIZE))
           (EbookStats.filteredUsers data filter search)).
Proof.
  intros data filter search page. unfold EbookStats.displayed.
  split; [| split].
  - etransitivity; [apply pagedUsers_sublist |].
    apply filter_sublist.
  - unfold EbookStats.filteredUsers. rewrite searchLower_empty.
    rewrite (filter_pointwise _ (fun _ => true)) by apply keeps_all_no_search.
    apply filter_everything.
  - apply pagedUsers_take_drop.
Qed.

(** C9: for every filtered list and every value of [page], [totalPages] is
    at least 1, [safePage] lies between 1 and [totalPages], [pagedUsers] has
    at most [PAGE_SIZE] rows and is the slice of the filtered list that
    belongs to [safePage]; and when the filtered list is not empty,
    [1 <= startIdx <= endIdx <= filteredUsers.length] and
    [endIdx - startIdx + 1] is the number of rows on the page. *)
Theorem pagination_total_and_in_range :
  forall (filteredUsers : list EbookStats.UserRow) (page : Z),
    let len := Z.of_nat (length filteredUsers) in
    let safePage := EbookStats.safePage filteredUsers page in
    let startIdx := EbookStats.startIdx filteredUsers page in
    let endIdx := EbookStats.endIdx filteredUsers page in
    let pagedUsers := EbookStats.pagedUsers filteredUsers page in
    1 <= EbookStats.totalPages filteredUsers /\
    1 <= safePage <= EbookStats.totalPages filteredUsers /\
    Z.of_nat (length pagedUsers) <= EbookStats.PAGE_SIZE /\
    EbookStats.PAGE_SIZE = 20 /\
    pagedUsers
    = take 20 (drop (Z.to_nat ((safePage - 1) * EbookStats.PAGE_SIZE)) filteredUsers) /\
    (filteredUsers <> [] ->
       1 <= startIdx /\ startIdx <= endIdx /\ endIdx <= len /\
       endIdx - startIdx + 1 = Z.of_nat (length pagedUsers)).
Proof.
  intros fu page len sp startIdx endIdx paged.
  pose proof (safePage_range fu page) as Hsp.
  pose proof (page_offset_range fu page) as [Hoff Hlt].
  pose proof (pagedUsers_length fu page) as Hlen.
  split; [apply totalPages_ge_1 |].
  split; [exact Hsp |].
  split; [subst paged; lia |].
  split; [reflexivity |].
  split; [apply pagedUsers_take_drop |].
  intros Hne.
  assert (0 < len) as Hpos.
  { subst len. destruct fu; [congruence | cbn; lia]. }
  specialize (Hlt Hpos).
  subst startIdx endIdx paged sp len.
  unfold EbookStats.startIdx, EbookStats.endIdx.
  destruct (Z.eqb_spec (Z.of_nat (length fu)) 0) as [? | _]; [lia |].
  unfold EbookStats.PAGE_SIZE in *. lia.
Qed.

(** C9 at a list of 45 rows and page 7: the view shows page 3, rows 41-45. *)
Lemma pagination_total_and_in_range_witness :
  1 <= EbookStats.startIdx Samples.manyUsers 7 /\
  EbookStats.startIdx Samples.manyUsers 7 <= EbookStats.endIdx Samples.manyUsers 7 /\
  EbookStats.endIdx Samples.manyUsers 7 <= Z.of_nat (length Samples.manyUsers) /\
  EbookStats.endIdx Samples.manyUsers 7 - EbookStats.startIdx Samples.manyUsers 7 + 1
  = Z.of_nat (length (EbookStats.pagedUsers Samples.manyUsers 7)).
Proof.
  apply (pagination_total_and_in_range Samples.manyUsers 7).
  discriminate.
Defined.

(** ** Completion percentage of the pledge manager *)

Section PercentageGuard.
Variable number : Type.
Variable ofZ : Z -> number.
Variable div mul : number -> number -> number.
Variable toFixed : number -> Z -> string.

Local Abbreviation percentage :=
  (PledgeManagerStats.percentage number ofZ div mul toFixed).

Lemma percentage_absent :
  percentage None
  = {| PledgeManagerStats.value := "0"; PledgeManagerStats.divisors := [] |}.
Proof. reflexivity. Qed.

Lemma percentage_no_users d :
  PledgeManagerStats.total_users (PledgeManagerStats.summary d) <= 0 ->
  percentage (Some d)
  = {| PledgeManagerStats.value := "0"; PledgeManagerStats.divisors := [] |}.
Proof.
  intros H. unfold PledgeManagerStats.percentage. cbn.
  destruct (Z.ltb_spec 0 (PledgeManagerStats.total_users (PledgeManagerStats.summary d)));
    [lia | reflexivity].
Qed.

Lemma percentage_some_users d :
  0 < PledgeManagerStats.total_users (PledgeManagerStats.summary d) ->
  percentage (Some d)
  = {| PledgeManagerStats.value :=
         toFixed
           (mul (div (ofZ (PledgeManagerStats.users_with_address (PledgeManagerStats.summary d)))
                     (ofZ (PledgeManagerStats.total_users (PledgeManagerStats.summary d))))
                (ofZ 100)) 1;
       PledgeManagerStats.divisors :=
         [PledgeManagerStats.total_users (PledgeManagerStats.summary d)] |}.
Proof.
  intros H. unfold PledgeManagerStats.percentage. cbn.
  destruct (Z.ltb_spec 0 (PledgeManagerStats.total_users (PledgeManagerStats.summary d)));
    [reflexivity | lia].
Qed.

End PercentageGuard.

(** C10: the completion percentage never divides by zero.  Whatever the
    arithmetic and the number formatting of the engine, every division
    evaluated by [percentage] has a divisor greater than zero; the value is
    [((users_with_address / total_users) * 100).toFixed(1)] exactly when
    there is a summary with [total_users > 0], and it is the string '0' when
    there is no summary or [total_users] is zero or negative (and then no
    division is evaluated at all). *)
Theorem percentage_never_divides_by_zero :
  forall (number : Type) (ofZ : Z -> number) (div mul : number -> number -> number)
         (toFixed : number -> Z -> string)
         (data : option PledgeManagerStats.PledgeManagerResponse),
    let r := PledgeManagerStats.percentage number ofZ div mul toFixed data in
    Forall (fun d => 0 < d) (PledgeManagerStats.divisors r) /\
    (data = None ->
       PledgeManagerStats.value r = "0" /\ PledgeManagerStats.divisors r = []) /\
    (forall d, data = Some d ->
       PledgeManagerStats.total_users (PledgeManagerStats.summary d) <= 0 ->
       PledgeManagerStats.value r = "0" /\ PledgeManagerStats.divisors r = []) /\
    (forall d, data = Some d ->
       0 < PledgeManagerStats.total_users (PledgeManagerStats.summary d) ->
       PledgeManagerStats.value r
       = toFixed
           (mul (div (ofZ (PledgeManagerStats.users_with_address (PledgeManagerStats.summary d)))
                     (ofZ (PledgeManagerStats.total_users (PledgeManagerStats.summary d))))
                (ofZ 100)) 1 /\
       PledgeManagerStats.divisors r
       = [PledgeManagerStats.total_users (PledgeManagerStats.summary d)]).
Proof.
  intros number ofZ div mul toFixed data r. subst r.
  split; [| split; [| split]].
  - destruct data as [d |]; [| constructor].
    destruct (Z_lt_le_dec 0 (PledgeManagerStats.total_users (PledgeManagerStats.summary d)))
      as [Hpos | Hle].
    + rewrite percentage_some_users by exact Hpos. cbn. repeat constructor. exact Hpos.
    + rewrite percentage_no_users by exact Hle. constructor.
  - intros ->. split; reflexivity.
  - intros d -> Hle. rewrite percentage_no_users by exact Hle. split; reflexivity.
  - intros d -> Hpos. rewrite percentage_some_users by exact Hpos. split; reflexivity.
Qed.

(** C10 at a summary with 3 of 8 users: the view shows 37.5, and the only
    division evaluated divides by 8. *)
Lemma percentage_never_divides_by_zero_witness :
  PledgeManagerStats.value (Samples.percentageQ (Some Samples.pledge0)) = "37.5" /\
  PledgeManagerStats.divisors (Samples.percentageQ (Some Samples.pledge0)) = [8].
Proof.
  destruct (percentage_never_divides_by_zero Q inject_Z Qdiv Qmult Samples.toFixedQ
              (Some Samples.pledge0)) as (_ & _ & _ & H).
  destruct (H Samples.pledge0 eq_refl ltac:(cbn; lia)) as [Hv Hd].
  split; [exact Hv | exact Hd].
Defined.

(** ** Cookie policy *)

(** C8: the cookie attributes are a function of the configuration alone:
    with a cookie domain configured the cookie is [Secure] with
    [SameSite=None] (and carries that domain); with none it is not [Secure]
    and has [SameSite=Lax]. *)
Theorem cookie_attributes_follow_domain :
  forall config,
    (forall d, CookiePolicy.cookieDomain config = Some d ->
       CookiePolicy.secure (CookiePolicy.attributesFor config) = true /\
       CookiePolicy.sameSite (CookiePolicy.attributesFor config)
         = CookiePolicy.SameSiteNone /\
       CookiePolicy.domain (CookiePolicy.attributesFor config) = Some d) /\
    (CookiePolicy.cookieDomain config = None ->
       CookiePolicy.secure (CookiePolicy.attributesFor config) = false /\
       CookiePolicy.sameSite (CookiePolicy.attributesFor config) = CookiePolicy.Lax /\
       CookiePolicy.domain (CookiePolicy.attributesFor config) = None).
Proof.
  intros config. unfold CookiePolicy.attributesFor.
  split.
  - intros d ->. repeat split.
  - intros ->. repeat split.
Qed.

(** C8 at the domain [.example.com] and at a configuration without domain. *)
Lemma cookie_attributes_follow_domain_witness :
  (CookiePolicy.secure
     (CookiePolicy.attributesFor {| CookiePolicy.cookieDomain := Some ".example.com" |})
   = true /\
   CookiePolicy.sameSite
     (CookiePolicy.attributesFor {| CookiePolicy.cookieDomain := Some ".example.com" |})
   = CookiePolicy.SameSiteNone /\
   CookiePolicy.domain
     (CookiePolicy.attributesFor {| CookiePolicy.cookieDomain := Some ".example.com" |})
   = Some ".example.com") /\
  (CookiePolicy.secure
     (CookiePolicy.attributesFor {| CookiePolicy.cookieDomain := None |}) = false /\
   CookiePolicy.sameSite
     (CookiePolicy.attributesFor {| CookiePolicy.cookieDomain := None |})
   = CookiePolicy.Lax /\
   CookiePolicy.domain
     (CookiePolicy.attributesFor {| CookiePolicy.cookieDomain := None |}) = None).
Proof.
  split.
  - apply (proj1 (cookie_attributes_follow_domain
                    {| CookiePolicy.cookieDomain := Some ".example.com" |})).
    reflexivity.
  - apply (proj2 (cookie_attributes_follow_domain
                    {| CookiePolicy.cookieDomain := None |})).
    reflexivity.
Defined.

(** ** Single-flight refresh of the snapshot cache *)

Section SingleFlight.
Variable key : SnapshotCache.ReportKey.
Implicit Types (c : SnapshotCache.Cache) (evs : list SnapshotCache.Event).

Lemma started_refresh_same who c :
  SnapshotCache.started key (SnapshotCache.refresh key who c)
  = match SnapshotCache.flights c !! key with
    | Some _ => SnapshotCache.started key c
    | None => S (SnapshotCache.started key c)
    end.
Proof.
  unfold SnapshotCache.refresh, SnapshotCache.started.
  destruct (SnapshotCache.flights c !! key); cbn; [reflexivity |].
  rewrite List.filter_app, length_app. cbn.
  rewrite bool_decide_eq_true_2 by reflexivity. cbn. lia.
Qed.

Lemma flights_refresh_same who c :
  SnapshotCache.flights (SnapshotCache.refresh key who c) !! key
  = Some (default [] (SnapshotCache.flights c !! key) ++ [who]).
Proof.
  unfold SnapshotCache.refresh.
  destruct (SnapshotCache.flights c !! key); cbn; apply lookup_insert_eq.
Qed.

Lemma callersOf_refresh_same who evs :
  SnapshotCache.callersOf key (SnapshotCache.Refresh key who :: evs)
  = who :: SnapshotCache.callersOf key evs.
Proof.
  unfold SnapshotCache.callersOf. cbn.
  rewrite bool_decide_eq_true_2 by reflexivity. reflexivity.
Qed.

Lemma callersOf_other ev evs :
  match ev with
  | SnapshotCache.Refresh k _ => k <> key
  | _ => True
  end ->
  SnapshotCache.callersOf key (ev :: evs) = SnapshotCache.callersOf key evs.
Proof.
  unfold SnapshotCache.callersOf.
  destruct ev as [k who | k snap | k]; cbn; intros Hne; [| reflexivity ..].
  rewrite bool_decide_eq_false_2 by exact Hne. reflexivity.
Qed.

(** Events about another key leave the flight and the count of [key] alone. *)
Lemma step_other_key c ev :
  match ev with
  | SnapshotCache.Refresh k _ => k <> key
  | SnapshotCache.Complete k _ => k <> key
  | SnapshotCache.Fail k => k <> key
  end ->
  SnapshotCache.flights (SnapshotCache.step c ev) !! key
    = SnapshotCache.flights c !! key /\
  SnapshotCache.started key (SnapshotCache.step c ev) = SnapshotCache.started key c.
Proof.
  unfold SnapshotCache.started.
  destruct ev as [k who | k snap | k]; cbn; intros Hne.
  - unfold SnapshotCache.refresh.
    destruct (SnapshotCache.flights c !! k); cbn.
    + split; [now apply lookup_insert_ne | reflexivity].
    + split; [now apply lookup_insert_ne |].
      rewrite List.filter_app, length_app. cbn.
      rewrite bool_decide_eq_false_2 by exact Hne. cbn. lia.
  - unfold SnapshotCache.complete.
    destruct (SnapshotCache.flights c !! k); cbn.
    + split; [now apply lookup_delete_ne | reflexivity].
    + split; reflexivity.
  - split; [now apply lookup_delete_ne | reflexivity].
Qed.

(** The flight and the count of [key] after a trace in which the flight of
    [key] does not end. *)
Lemma run_overlapping evs : forall c,
  SnapshotCache.overlapping key evs ->
  SnapshotCache.flights (SnapshotCache.run evs c) !! key
  = match SnapshotCache.flights c !! key, SnapshotCache.callersOf key evs with
    | None, [] => None
    | o, cs => Some (default [] o ++ cs)
    end /\
  SnapshotCache.started key (SnapshotCache.run evs c)
  = match SnapshotCache.flights c !! key, SnapshotCache.callersOf key evs with
    | None, _ :: _ => S (SnapshotCache.started key c)
    | _, _ => SnapshotCache.started key c
    end.
Proof.
  induction evs as [| ev evs IH]; intros c Hov.
  - cbn. destruct (SnapshotCache.flights c !! key) as [ws |]; cbn;
      rewrite ?app_nil_r; split; reflexivity.
  - apply Forall_cons in Hov as [Hev Hov].
    change (SnapshotCache.run (ev :: evs) c)
      with (SnapshotCache.run evs (SnapshotCache.step c ev)).
    destruct (IH (SnapshotCache.step c ev) Hov) as [IHf IHs].
    rewrite IHf, IHs. clear IHf IHs IH.
    destruct ev as [k who | k snap | k].
    + destruct (decide (k = key)) as [-> | Hne].
      * cbn [SnapshotCache.step].
        rewrite callersOf_refresh_same, flights_refresh_same, started_refresh_same.
        destruct (SnapshotCache.flights c !! key) as [ws |]; cbn;
          rewrite <- ?app_assoc; split; reflexivity.
      * destruct (step_other_key c (SnapshotCache.Refresh k who) Hne) as [-> ->].
        rewrite callersOf_other by exact Hne.
        split; reflexivity.
    + destruct (step_other_key c (SnapshotCache.Complete k snap) Hev) as [-> ->].
      rewrite callersOf_other by exact I.
      split; reflexivity.
    + destruct (step_other_key c (SnapshotCache.Fail k) Hev) as [-> ->].
      rewrite callersOf_other by exact I.
      split; reflexivity.
Qed.

End SingleFlight.

(** C3: single flight.  Take any key with no refresh in progress and any
    trace during which the flight of that key does not end, containing
    N >= 1 calls of [refresh(key)] interleaved at will with traffic for
    other keys.  Then exactly one Aggregator recomputation is started for
    the key, all N callers are attached to that one flight, and when it
    completes with a snapshot every one of the N callers receives that same
    snapshot, which is also the one [get] serves from then on. *)
Theorem concurrent_refreshes_share_one_flight :
  forall key evs c,
    SnapshotCache.flights c !! key = None ->
    SnapshotCache.overlapping key evs ->
    SnapshotCache.callersOf key evs <> [] ->
    let c' := SnapshotCache.run evs c in
    SnapshotCache.started key c' = S (SnapshotCache.started key c) /\
    SnapshotCache.flights c' !! key = Some (SnapshotCache.callersOf key evs) /\
    forall snap,
      SnapshotCache.resolved (SnapshotCache.complete key snap c')
      = SnapshotCache.resolved c'
        ++ map (fun who => (who, snap)) (SnapshotCache.callersOf key evs) /\
      SnapshotCache.started key (SnapshotCache.complete key snap c')
      = S (SnapshotCache.started key c) /\
      SnapshotCache.get key (SnapshotCache.complete key snap c') = Some snap.
Proof.
  intros key evs c Hidle Hov Hcalls c'.
  destruct (run_overlapping key evs c Hov) as [Hf Hs]. fold c' in Hf, Hs.
  rewrite Hidle in Hf, Hs.
  destruct (SnapshotCache.callersOf key evs) as [| who cs] eqn:E; [congruence |].
  cbn in Hf.
  split; [exact Hs |]. split; [exact Hf |].
  intros snap. unfold SnapshotCache.complete, SnapshotCache.get.
  rewrite Hf. cbn.
  split; [reflexivity |]. split; [exact Hs | apply lookup_insert_eq].
Qed.

(** C3 at three overlapping refreshes of the ebook report. *)
Lemma concurrent_refreshes_share_one_flight_witness :
  let c' := SnapshotCache.run Samples.threeSyncClicks SnapshotCache.empty in
  SnapshotCache.started Samples.ebook30 c' = 1%nat /\
  SnapshotCache.flights c' !! Samples.ebook30 = Some [1%nat; 2%nat; 3%nat] /\
  forall snap,
    SnapshotCache.resolved (SnapshotCache.complete Samples.ebook30 snap c')
    = SnapshotCache.resolved c' ++ [(1%nat, snap); (2%nat, snap); (3%nat, snap)] /\
    SnapshotCache.started Samples.ebook30 (SnapshotCache.complete Samples.ebook30 snap c')
    = 1%nat /\
    SnapshotCache.get Samples.ebook30 (SnapshotCache.complete Samples.ebook30 snap c')
    = Some snap.
Proof.
  apply (concurrent_refreshes_share_one_flight Samples.ebook30
           Samples.threeSyncClicks SnapshotCache.empty).
  - apply lookup_empty.
  - repeat constructor; discriminate.
  - discriminate.
Defined.

(** ** The refresh counters and the syncing flags of the shell *)

Lemma app_commit st' s : Portal.app (Portal.commit st' s) = st'.
Proof.
  unfold Portal.commit.
  destruct (Portal.mounted s) as [[i v] |], (App.rendered st') as [v' |];
    repeat case_match; reflexivity.
Qed.

Lemma run_snoc pathname evs ev :
  Portal.run pathname (evs ++ [ev]) = Portal.step (Portal.run pathname evs) ev.
Proof. unfold Portal.run. now rewrite fold_left_app. Qed.

Lemma refreshSeq_handleSync st v :
  App.rendered st = Some v ->
  App.refreshSeq v (App.handleSync st) = App.refreshSeq v st + 1 /\
  (forall v', v' <> v -> App.refreshSeq v' (App.handleSync st) = App.refreshSeq v' st).
Proof.
  unfold App.rendered, App.handleSync.
  destruct (bool_decide (App.auth st <> App.authed)); [discriminate |].
  destruct (App.isEbookPage st); [| destruct (App.isPledgePage st)];
    intros [= <-]; (split; [reflexivity |]); intros [] ?; cbn; congruence.
Qed.

Lemma refreshSeq_handleSync_le st v :
  App.refreshSeq v st <= App.refreshSeq v (App.handleSync st).
Proof.
  unfold App.handleSync.
  destruct (App.isEbookPage st); [| destruct (App.isPledgePage st)];
    destruct v; cbn; lia.
Qed.

Lemma refreshSeq_onRefreshComplete v' v st :
  App.refreshSeq v (App.onRefreshComplete v' st) = App.refreshSeq v st.
Proof. destruct v', v; reflexivity. Qed.

(** No event ever lowers a refresh counter. *)
Lemma refreshSeq_step_le s ev v :
  App.refreshSeq v (Portal.app s) <= App.refreshSeq v (Portal.app (Portal.step s ev)).
Proof.
  destruct ev as [ok | path | | n]; cbn.
  - rewrite app_commit. destruct v; cbn; lia.
  - rewrite app_commit. destruct v; cbn; lia.
  - destruct (App.syncButtonClickable (Portal.app s)); [| lia].
    rewrite app_commit. apply refreshSeq_handleSync_le.
  - destruct (Portal.inflight s !! n) as [r |]; [| lia].
    destruct (Portal.isPOST (Portal.method r) && negb (Portal.cancelled r)); cbn; [| lia].
    rewrite app_commit, refreshSeq_onRefreshComplete. lia.
Qed.

Lemma refreshSeq_reachable_nonneg s v :
  Portal.reachable s -> 0 <= App.refreshSeq v (Portal.app s).
Proof.
  intros (pathname & evs & ->).
  induction evs as [| ev evs IH] using rev_ind.
  - destruct v; cbn; lia.
  - rewrite run_snoc.
    pose proof (refreshSeq_step_le (Portal.run pathname evs) ev v). lia.
Qed.

Lemma rendered_when_clickable st :
  App.syncButtonClickable st = true -> is_Some (App.rendered st).
Proof.
  unfold App.syncButtonClickable, App.syncButtonRendered, App.rendered, App.isSubPage.
  intros H. apply andb_true_iff in H as [H _]. apply andb_true_iff in H as [Ha Hp].
  apply bool_decide_eq_true in Ha.
  rewrite bool_decide_eq_false_2 by (intros Hn; now apply Hn).
  destruct (App.isEbookPage st); [eauto |].
  destruct (App.isPledgePage st); [eauto | discriminate].
Qed.

(** C7: each refresh counter starts at 0; no event of the portal lowers it;
    a click on the (enabled) Sync button raises the counter of the view on
    screen by exactly 1 and leaves the other counter alone; hence it is
    never negative; and the refresh effect starts a refresh only for a
    counter different from 0, that is, strictly greater than 0: for the
    initial value 0 it returns at once. *)
Theorem refreshSeq_is_a_monotone_counter :
  (forall pathname v, App.refreshSeq v (App.initial pathname) = 0) /\
  (forall s ev v,
     App.refreshSeq v (Portal.app s)
     <= App.refreshSeq v (Portal.app (Portal.step s ev))) /\
  (forall s, App.syncButtonClickable (Portal.app s) = true ->
     exists v, App.rendered (Portal.app s) = Some v /\
       App.refreshSeq v (Portal.app (Portal.step s Portal.ClickSync))
       = App.refreshSeq v (Portal.app s) + 1 /\
       forall v', v' <> v ->
         App.refreshSeq v' (Portal.app (Portal.step s Portal.ClickSync))
         = App.refreshSeq v' (Portal.app s)) /\
  (forall s v, Portal.reachable s -> 0 <= App.refreshSeq v (Portal.app s)) /\
  (forall w, EbookStats.refreshEffect_begin 0 w = None) /\
  (forall s v w, Portal.reachable s ->
     is_Some (EbookStats.refreshEffect_begin (App.refreshSeq v (Portal.app s)) w) ->
     0 < App.refreshSeq v (Portal.app s)) /\
  (forall s i v rs, Portal.reachable s ->
     Portal.runRefreshEffect i v (App.refreshSeq v (Portal.app s)) rs <> rs ->
     0 < App.refreshSeq v (Portal.app s)).
Proof.
  split; [intros pathname []; reflexivity |].
  split; [apply refreshSeq_step_le |].
  split.
  { intros s Hc. destruct (rendered_when_clickable _ Hc) as [v Hv].
    exists v. split; [exact Hv |].
    cbn. rewrite Hc, app_commit. now apply refreshSeq_handleSync. }
  split; [intros s v; apply refreshSeq_reachable_nonneg |].
  split; [reflexivity |].
  split.
  - intros s v w Hr Hs. pose proof (refreshSeq_reachable_nonneg s v Hr) as H0.
    unfold EbookStats.refreshEffect_begin, StatsView.refreshEffect_begin in Hs.
    destruct (Z.eqb_spec (App.refreshSeq v (Portal.app s)) 0) as [E | E].
    + destruct Hs as [? Hs]. discriminate.
    + lia.
  - intros s i v rs Hr Hs. pose proof (refreshSeq_reachable_nonneg s v Hr) as H0.
    unfold Portal.runRefreshEffect in Hs.
    destruct (Z.eqb_spec (App.refreshSeq v (Portal.app s)) 0) as [E | E].
    + congruence.
    + lia.
Qed.

(** C7 on the ebook page after one sync: the counter went from 0 to 1 and a
    refresh is started for it. *)
Lemma refreshSeq_is_a_monotone_counter_witness :
  let s := Portal.run "/ebook" [Portal.Authenticated true] in
  (exists v, App.rendered (Portal.app s) = Some v /\
     App.refreshSeq v (Portal.app (Portal.step s Portal.ClickSync))
     = App.refreshSeq v (Portal.app s) + 1 /\
     forall v', v' <> v ->
       App.refreshSeq v' (Portal.app (Portal.step s Portal.ClickSync))
       = App.refreshSeq v' (Portal.app s)) /\
  0 < App.refreshSeq App.EbookStatsView
        (Portal.app (Portal.run "/ebook" [Portal.Authenticated true; Portal.ClickSync])).
Proof.
  destruct refreshSeq_is_a_monotone_counter as (_ & _ & Hclick & _ & _ & _ & Hrun).
  split.
  - apply Hclick. reflexivity.
  - apply (Hrun _ 0%nat App.EbookStatsView []).
    + exists "/ebook", [Portal.Authenticated true; Portal.ClickSync]. reflexivity.
    + discriminate.
Defined.

(** ** One refresh at a time? *)

(** The trigger is dead while the flag of the page on screen is set. *)
Lemma click_ignored_while_syncing s :
  App.isSyncing (Portal.app s) = true -> Portal.step s Portal.ClickSync = s.
Proof.
  intros H. cbn. unfold App.syncButtonClickable, App.syncButtonDisabled.
  rewrite H, andb_false_r. reflexivity.
Qed.

(** [handleSync] raises the flag of the page on screen. *)
Lemma handleSync_sets_flag st :
  App.isSubPage st = true -> App.isSyncing (App.handleSync st) = true.
Proof.
  unfold App.isSubPage, App.isSyncing, App.handleSync.
  destruct (App.isEbookPage st) eqn:E.
  - intros _. unfold App.isEbookPage in *. cbn. rewrite E. reflexivity.
  - cbn. intros Hp. rewrite Hp.
    unfold App.isEbookPage, App.isPledgePage in *. cbn. rewrite E. reflexivity.
Qed.

(** A flag is lowered only by [onRefreshComplete], that is, when a POST
    request whose closure was not cancelled settles. *)
Lemma flag_reset_only_on_refresh_complete s ev v :
  App.syncing v (Portal.app s) = true ->
  App.syncing v (Portal.app (Portal.step s ev)) = false ->
  exists n r, ev = Portal.Settle n /\ Portal.inflight s !! n = Some r /\
    Portal.method r = StatsView.POST /\ Portal.cancelled r = false /\
    Portal.ownerView r = v.
Proof.
  intros Hon Hoff.
  destruct ev as [ok | path | | n]; cbn in Hoff.
  - rewrite app_commit in Hoff. destruct v; cbn in *; congruence.
  - rewrite app_commit in Hoff. destruct v; cbn in *; congruence.
  - destruct (App.syncButtonClickable (Portal.app s)); [| congruence].
    rewrite app_commit in Hoff. unfold App.handleSync in Hoff.
    destruct (App.isEbookPage (Portal.app s));
      [| destruct (App.isPledgePage (Portal.app s))];
      destruct v; cbn in *; congruence.
  - destruct (Portal.inflight s !! n) as [r |] eqn:Hr; [| congruence].
    destruct (Portal.method r) eqn:Hm; cbn in Hoff; [congruence |].
    destruct (Portal.cancelled r) eqn:Hc; cbn in Hoff; [congruence |].
    rewrite app_commit in Hoff.
    exists n, r. repeat split; try assumption.
    destruct (Portal.ownerView r), v; cbn in *; congruence.
Qed.

(** C6: the code at the failing executions.
    (a) On the ebook page a first sync runs to completion; the user leaves
    the page and comes back.  The new view instance mounts with
    [refreshSeq = 1], so its refresh effect issues a POST at once although
    [ebookSyncing] is [false] and the Sync button is enabled; a click then
    issues a second POST while the first is still in flight: two refreshes
    of the same view instance are in flight.
    (b) The user clicks Sync and, before the response arrives, leaves the
    page and comes back: the flag is still set (the view shows Syncing) and
    the new instance starts a second refresh next to the one still in
    flight. *)
Theorem remount_allows_two_refreshes_in_flight :
  (let s := Portal.run "/ebook"
              [Portal.Authenticated true; Portal.ClickSync; Portal.Settle 1;
               Portal.Navigate "/"; Portal.Navigate "/ebook"] in
   App.ebookRefreshSeq (Portal.app s) = 1 /\
   App.ebookSyncing (Portal.app s) = false /\
   App.syncButtonClickable (Portal.app s) = true /\
   Portal.refreshesInFlight s = 1%nat /\
   Portal.refreshesInFlight (Portal.step s Portal.ClickSync) = 2%nat) /\
  (let s := Portal.run "/ebook"
              [Portal.Authenticated true; Portal.ClickSync; Portal.Navigate "/"] in
   App.ebookSyncing (Portal.app s) = true /\
   Portal.refreshesOfView App.EbookStatsView s = 1%nat /\
   App.ebookSyncing (Portal.app (Portal.step s (Portal.Navigate "/ebook"))) = true /\
   Portal.refreshesOfView App.EbookStatsView
     (Portal.step s (Portal.Navigate "/ebook")) = 2%nat).
Proof. vm_compute. repeat split. Qed.

(** * Further properties of the code *)

(** ** [apiFetch] and the error box *)

Lemma apiFetch_http_error {Resp} (res : StatsView.Response Resp) :
  StatsView.res_ok res = false ->
  exists m, StatsView.apiFetch (StatsView.Responded res)
            = StatsView.Rejected (StatsView.ErrorObject m) /\
            JS.truthy m = true /\
            (forall t, StatsView.res_text res = Some t -> JS.truthy t = true -> m = t).
Proof.
  intros Hok. unfold StatsView.apiFetch. rewrite Hok. cbn.
  destruct (JS.truthy (default "" (StatsView.res_text res))) eqn:Ht.
  - eexists. split; [reflexivity |]. split; [exact Ht |].
    intros t -> _. reflexivity.
  - eexists. split; [reflexivity |]. split; [reflexivity |].
    intros t E Ht'. rewrite E in Ht. cbn in Ht. congruence.
Qed.

(** X1: a response whose status is not ok never resolves: [apiFetch]
    rejects with a non-empty message (the body text when there is one), and
    after [fetchStats] the view holds no data and renders the error box. *)
Theorem http_error_is_always_reported :
  forall (res : StatsView.Response EbookStats.EbookStatsResponse)
         (w : StatsView.World EbookStats.EbookStatsResponse),
    StatsView.res_ok res = false ->
    let o := StatsView.apiFetch (StatsView.Responded res) in
    let w' := EbookStats.fetchStats_settle o (EbookStats.fetchStats_begin w) in
    (exists m, o = StatsView.Rejected (StatsView.ErrorObject m) /\
               JS.truthy m = true /\
               (forall t, StatsView.res_text res = Some t ->
                          JS.truthy t = true -> m = t)) /\
    StatsView.data (StatsView.hooks w') = None /\
    Render.errorBoxShown (StatsView.hooks w') = true.
Proof.
  intros res w Hok o w'.
  destruct (apiFetch_http_error res Hok) as (m & Ho & Hm & Ht).
  split; [exists m; auto |].
  subst w' o. rewrite Ho. split; [reflexivity |]. exact Hm.
Qed.

Lemma http_error_is_always_reported_witness :
  let o := StatsView.apiFetch Samples.storeDown in
  let w' := EbookStats.fetchStats_settle o
              (EbookStats.fetchStats_begin Samples.readyWorld) in
  (exists m, o = StatsView.Rejected (StatsView.ErrorObject m) /\
             JS.truthy m = true /\
             (forall t, Some "event store unreachable" = Some t ->
                        JS.truthy t = true -> m = t)) /\
  StatsView.data (StatsView.hooks w') = None /\
  Render.errorBoxShown (StatsView.hooks w') = true.
Proof.
  apply (http_error_is_always_reported
           {| StatsView.res_ok := false; StatsView.res_status := 500%N;
              StatsView.res_text := Some "event store unreachable";
              StatsView.res_json := inr "Unexpected token" |}
           Samples.readyWorld).
  reflexivity.
Defined.

(** X2: one [fetchStats] from start to end leaves the view with either a
    snapshot and no error, or an error and no snapshot, whatever it held
    before; and the mount effect, when not cancelled, ends the loading
    state in both cases. *)
Theorem fetch_sets_data_or_error_exclusively :
  forall (fallback : string) (Resp : Type) (w : StatsView.World Resp)
         (o : StatsView.Outcome Resp),
    let h := StatsView.hooks
               (StatsView.fetchStats_settle fallback o (StatsView.fetchStats_begin w)) in
    let hm := StatsView.hooks
                (StatsView.mountEffect_settle fallback false o
                   (StatsView.mountEffect_begin w)) in
    (is_Some (StatsView.data h) /\ StatsView.error h = None \/
     StatsView.data h = None /\ is_Some (StatsView.error h)) /\
    StatsView.data hm = StatsView.data h /\
    StatsView.error hm = StatsView.error h /\
    Render.bodyShown hm = true.
Proof.
  intros fallback Resp w o h hm. subst h hm.
  destruct o as [stats | e]; cbn; (split; [| repeat split]).
  - left. split; [eexists; reflexivity | reflexivity].
  - right. split; [reflexivity | eexists; reflexivity].
Qed.

(** X3: when two fetches overlap (as the GET and the POST issued by a
    view that mounts with a non-zero counter do) and the one that fails
    settles first, the success of the other stores the data but does not
    clear the error: the view shows the new snapshot under the error of the
    other request.  In the opposite order the failure wipes the data. *)
Theorem overlapping_fetches_mix_results :
  forall (fallback : string) (Resp : Type) (w : StatsView.World Resp)
         (e : StatsView.Thrown) (stats : Resp),
    let started := StatsView.fetchStats_begin (StatsView.fetchStats_begin w) in
    let failFirst :=
      StatsView.hooks
        (StatsView.fetchStats_settle fallback (StatsView.Resolved stats)
           (StatsView.fetchStats_settle fallback (StatsView.Rejected e) started)) in
    let failLast :=
      StatsView.hooks
        (StatsView.fetchStats_settle fallback (StatsView.Rejected e)
           (StatsView.fetchStats_settle fallback (StatsView.Resolved stats) started)) in
    StatsView.data failFirst = Some stats /\
    StatsView.error failFirst = Some (StatsView.messageOf fallback e) /\
    StatsView.data failLast = None /\
    StatsView.error failLast = Some (StatsView.messageOf fallback e).
Proof. intros. repeat split. Qed.

(** ** The search box *)

Lemma lower_unit_idempotent c : JS.lower_unit (JS.lower_unit c) = JS.lower_unit c.
Proof. destruct c as [[] [] [] [] [] [] [] []]; reflexivity. Qed.

Lemma lower_unit_space c : JS.is_space c = true -> JS.lower_unit c = c.
Proof. destruct c as [[] [] [] [] [] [] [] []]; vm_compute; intros H; congruence. Qed.

Lemma toLowerCase_idempotent s : JS.toLowerCase (JS.toLowerCase s) = JS.toLowerCase s.
Proof.
  induction s as [| c s IH]; cbn; [reflexivity |].
  now rewrite lower_unit_idempotent, IH.
Qed.

Lemma toLowerCase_blank s : Render.blank s -> JS.toLowerCase s = s.
Proof.
  unfold Render.blank. induction s as [| c s IH]; cbn; [reflexivity |].
  intros H. apply Forall_cons in H as [Hc Hs].
  now rewrite (lower_unit_space c Hc), IH.
Qed.

Lemma trimStart_blank s : Render.blank s <-> JS.trimStart s = "".
Proof.
  unfold Render.blank. induction s as [| c s IH]; cbn.
  - split; [reflexivity | constructor].
  - destruct (JS.is_space c) eqn:Hc.
    + rewrite Forall_cons, IH. intuition.
    + split; [| discriminate].
      intros H. apply Forall_cons in H as [H _]. congruence.
Qed.

Lemma trimStart_head s c r :
  JS.trimStart s = String c r -> JS.is_space c = false.
Proof.
  induction s as [| d s IH]; cbn; [discriminate |].
  destruct (JS.is_space d) eqn:Hd; [exact IH |].
  intros [= -> ->]. exact Hd.
Qed.

Lemma trimEnd_nonblank_head c r :
  JS.is_space c = false -> JS.trimEnd (String c r) <> "".
Proof.
  intros Hc. cbn. rewrite Hc. destruct (JS.trimEnd r); discriminate.
Qed.

(** [trim] returns the empty string exactly on blank strings. *)
Lemma trim_empty_iff s : JS.trim s = "" <-> Render.blank s.
Proof.
  unfold JS.trim. rewrite trimStart_blank.
  destruct (JS.trimStart s) as [| c r] eqn:E.
  - split; reflexivity.
  - split; [| discriminate].
    intros H. exfalso. revert H. apply trimEnd_nonblank_head.
    eapply trimStart_head, E.
Qed.

Lemma searchLower_blank s : Render.blank s -> EbookStats.searchLower s = "".
Proof.
  intros H. unfold EbookStats.searchLower.
  rewrite toLowerCase_blank by exact H. now apply trim_empty_iff.
Qed.

Lemma searchLower_toLowerCase s :
  EbookStats.searchLower (JS.toLowerCase s) = EbookStats.searchLower s.
Proof. unfold EbookStats.searchLower. now rewrite toLowerCase_idempotent. Qed.

(** The callback of [filter] is the conjunction of its category test and
    its search test. *)
Lemma keeps_split f sl u :
  EbookStats.keeps f sl u = EbookStats.keeps f "" u && EbookStats.keeps EbookStats.F_all sl u.
Proof.
  unfold EbookStats.keeps.
  destruct f; cbn;
    repeat match goal with
           | |- context [negb ?b] => destruct b; cbn
           end; try reflexivity;
    destruct (JS.truthy sl); reflexivity.
Qed.

(** X4: category and search are independent: the list shown is the
    category filter applied to the search hits, and equally the search
    applied to the category list; so it is a subsequence of both, and the
    count in the heading never exceeds the count without search. *)
Theorem category_and_search_commute :
  forall data filter search,
    let shown := EbookStats.filteredUsers data filter search in
    let hits := EbookStats.filteredUsers data EbookStats.F_all search in
    let category := EbookStats.filteredUsers data filter "" in
    shown = List.filter (EbookStats.keeps filter "") hits /\
    shown = List.filter (EbookStats.keeps EbookStats.F_all (EbookStats.searchLower search))
              category /\
    shown `sublist_of` hits /\
    shown `sublist_of` category /\
    (length shown <= length category)%nat.
Proof.
  intros data filter search shown hits category.
  assert (E1 : shown = List.filter (EbookStats.keeps filter "") hits).
  { subst shown hits. unfold EbookStats.filteredUsers.
    rewrite <- filter_andb. apply filter_pointwise. intros u. apply keeps_split. }
  assert (E2 : shown = List.filter
                 (EbookStats.keeps EbookStats.F_all (EbookStats.searchLower search))
                 category).
  { subst shown category. unfold EbookStats.filteredUsers.
    rewrite searchLower_empty, <- filter_andb. apply filter_pointwise.
    intros u. rewrite keeps_split. apply andb_comm. }
  split; [exact E1 |]. split; [exact E2 |].
  split; [rewrite E1; apply filter_sublist |].
  split; [rewrite E2; apply filter_sublist |].
  rewrite E2. apply sublist_length, filter_sublist.
Qed.

(** X5: the search ignores the case of the query, and a query made only of
    white space is no query at all. *)
Theorem search_ignores_case_and_blank_queries :
  forall data filter search,
    EbookStats.filteredUsers data filter (JS.toLowerCase search)
    = EbookStats.filteredUsers data filter search /\
    (Render.blank search ->
     EbookStats.filteredUsers data filter search
     = EbookStats.filteredUsers data filter "").
Proof.
  intros data filter search. unfold EbookStats.filteredUsers. split.
  - now rewrite searchLower_toLowerCase.
  - intros H. now rewrite (searchLower_blank search H), searchLower_empty.
Qed.

Lemma search_ignores_case_and_blank_queries_witness :
  EbookStats.filteredUsers (Some Samples.stats0) EbookStats.F_pdf "   "
  = EbookStats.filteredUsers (Some Samples.stats0) EbookStats.F_pdf "".
Proof.
  apply (search_ignores_case_and_blank_queries
           (Some Samples.stats0) EbookStats.F_pdf "   ").
  repeat constructor.
Defined.

(** ** Pages tile the list *)

Lemma chunks_concat {A} (l : list A) : forall n,
  (length l <= 20 * n)%nat ->
  concat (map (fun i => take 20 (drop (i * 20) l)) (seq 0 n)) = l.
Proof.
  intros n. revert l. induction n as [| n IH]; intros l Hlen.
  - destruct l; [reflexivity | cbn in Hlen; lia].
  - cbn [seq map concat]. rewrite <- seq_shift, map_map.
    rewrite (map_ext _ (fun i => take 20 (drop (i * 20) (drop 20 l)))).
    + rewrite IH by (rewrite length_drop; lia).
      cbn [Nat.mul drop]. apply take_drop.
    + intros i. rewrite drop_drop. do 2 f_equal; lia.
Qed.

Lemma totalPages_covers (fu : list EbookStats.UserRow) :
  Z.of_nat (length fu) <= 20 * EbookStats.totalPages fu.
Proof.
  unfold EbookStats.totalPages.
  pose proof (ceil_div_bounds (Z.of_nat (length fu)) EbookStats.PAGE_SIZE
                ltac:(reflexivity)) as H.
  unfold EbookStats.PAGE_SIZE in *. lia.
Qed.

Lemma safePage_in_range (fu : list EbookStats.UserRow) p :
  1 <= p <= EbookStats.totalPages fu -> EbookStats.safePage fu p = p.
Proof. unfold EbookStats.safePage. lia. Qed.

(** The page numbers 1 .. [totalPages]. *)
Lemma pages_as_chunks (fu : list EbookStats.UserRow) :
  map (fun p => EbookStats.pagedUsers fu p)
      (map (fun i => Z.of_nat (S i)) (seq 0 (Z.to_nat (EbookStats.totalPages fu))))
  = map (fun i => take 20 (drop (i * 20) fu))
      (seq 0 (Z.to_nat (EbookStats.totalPages fu))).
Proof.
  rewrite map_map. apply map_ext_in. intros i Hi.
  apply in_seq in Hi.
  rewrite pagedUsers_take_drop, safePage_in_range by lia.
  do 2 f_equal. unfold EbookStats.PAGE_SIZE. lia.
Qed.

(** X6: pagination loses and repeats nothing: the pages 1, 2, ...,
    [totalPages], one after the other, are the filtered list. *)
Theorem pages_concatenate_to_the_list :
  forall fu : list EbookStats.UserRow,
    concat (map (fun p => EbookStats.pagedUsers fu p)
              (map (fun i => Z.of_nat (S i))
                 (seq 0 (Z.to_nat (EbookStats.totalPages fu)))))
    = fu.
Proof.
  intros fu. rewrite pages_as_chunks. apply chunks_concat.
  pose proof (totalPages_covers fu). pose proof (totalPages_ge_1 fu). lia.
Qed.

(** X7: the ranges "Showing a-b of n" of consecutive pages are adjacent:
    for a non-empty list page 1 starts at 1, every page starts right after
    the end of the previous one, and the last page ends at [n]; pages beyond
    the last show the last page and pages below 1 show the first. *)
Theorem shown_ranges_are_adjacent :
  forall (fu : list EbookStats.UserRow) (p : Z),
    fu <> [] ->
    EbookStats.startIdx fu 1 = 1 /\
    EbookStats.endIdx fu (EbookStats.totalPages fu) = Z.of_nat (length fu) /\
    (1 <= p < EbookStats.totalPages fu ->
       EbookStats.startIdx fu (p + 1) = EbookStats.endIdx fu p + 1) /\
    (EbookStats.totalPages fu <= p ->
       EbookStats.pagedUsers fu p = EbookStats.pagedUsers fu (EbookStats.totalPages fu)) /\
    (p <= 1 -> EbookStats.pagedUsers fu p = EbookStats.pagedUsers fu 1).
Proof.
  intros fu p Hne.
  assert (0 < Z.of_nat (length fu)) as Hpos by (destruct fu; [congruence | cbn; lia]).
  pose proof (totalPages_covers fu) as Hcov.
  pose proof (totalPages_ge_1 fu) as H1.
  assert (Htot : 20 * (EbookStats.totalPages fu - 1) < Z.of_nat (length fu)).
  { unfold EbookStats.totalPages.
    pose proof (ceil_div_bounds (Z.of_nat (length fu)) EbookStats.PAGE_SIZE
                  ltac:(reflexivity)) as H.
    unfold EbookStats.PAGE_SIZE in *. lia. }
  unfold EbookStats.startIdx, EbookStats.endIdx, EbookStats.pagedUsers.
  destruct (Z.eqb_spec (Z.of_nat (length fu)) 0) as [? | _]; [lia |].
  split; [rewrite safePage_in_range by lia; reflexivity |].
  split; [rewrite safePage_in_range by lia; unfold EbookStats.PAGE_SIZE; lia |].
  split; [intros Hp; rewrite !safePage_in_range by lia;
          unfold EbookStats.PAGE_SIZE; lia |].
  split; intros Hp.
  - replace (EbookStats.safePage fu p) with (EbookStats.totalPages fu)
      by (unfold EbookStats.safePage; lia).
    rewrite safePage_in_range by lia. reflexivity.
  - replace (EbookStats.safePage fu p) with 1
      by (unfold EbookStats.safePage; lia).
    rewrite safePage_in_range by lia. reflexivity.
Qed.

Lemma shown_ranges_are_adjacent_witness :
  EbookStats.startIdx Samples.manyUsers 1 = 1 /\
  EbookStats.endIdx Samples.manyUsers (EbookStats.totalPages Samples.manyUsers)
  = Z.of_nat (length Samples.manyUsers) /\
  (1 <= 2 < EbookStats.totalPages Samples.manyUsers ->
     EbookStats.startIdx Samples.manyUsers (2 + 1)
     = EbookStats.endIdx Samples.manyUsers 2 + 1) /\
  (EbookStats.totalPages Samples.manyUsers <= 2 ->
     EbookStats.pagedUsers Samples.manyUsers 2
     = EbookStats.pagedUsers Samples.manyUsers
         (EbookStats.totalPages Samples.manyUsers)) /\
  (2 <= 1 -> EbookStats.pagedUsers Samples.manyUsers 2
             = EbookStats.pagedUsers Samples.manyUsers 1).
Proof.
  apply (shown_ranges_are_adjacent Samples.manyUsers 2). discriminate.
Defined.

(** ** The page number stays in range *)

Lemma controls_run_snoc evs ev :
  EbookStatsControls.run (evs ++ [ev])
  = EbookStatsControls.step (EbookStatsControls.run evs) ev.
Proof. unfold EbookStatsControls.run. now rewrite fold_left_app. Qed.

Lemma controls_first_page_in_range c :
  EbookStatsControls.page c = 1 ->
  1 <= EbookStatsControls.page c <= EbookStatsControls.totalPages c.
Proof.
  intros ->. pose proof (totalPages_ge_1 (EbookStatsControls.filteredUsers c)).
  unfold EbookStatsControls.totalPages. lia.
Qed.

Lemma controls_step_in_range c ev :
  1 <= EbookStatsControls.page c <= EbookStatsControls.totalPages c ->
  1 <= EbookStatsControls.page (EbookStatsControls.step c ev)
    <= EbookStatsControls.totalPages (EbookStatsControls.step c ev).
Proof.
  intros Hc. destruct ev as [f | s | d | |]; cbn.
  - unfold EbookStatsControls.pageResetEffect. case_bool_decide as Hf.
    + now apply controls_first_page_in_range.
    + assert (f = EbookStatsControls.filter c) as -> by (destruct (decide (f = EbookStatsControls.filter c)); tauto).
      destruct c; exact Hc.
  - unfold EbookStatsControls.pageResetEffect. case_bool_decide as Hs.
    + now apply controls_first_page_in_range.
    + assert (s = EbookStatsControls.search c) as -> by (destruct (decide (s = EbookStatsControls.search c)); tauto).
      destruct c; exact Hc.
  - unfold EbookStatsControls.pageResetEffect, EbookStatsControls.usersChanged.
    destruct (EbookStatsControls.data c) eqn:Ed, d;
      try (now apply controls_first_page_in_range).
    destruct c; cbn in *; subst; exact Hc.
  - destruct (EbookStatsControls.prevEnabled c); [| exact Hc].
    unfold EbookStatsControls.totalPages, EbookStatsControls.filteredUsers in *.
    cbn. unfold EbookStats.prevPage. lia.
  - destruct (EbookStatsControls.nextEnabled c); [| exact Hc].
    unfold EbookStatsControls.totalPages, EbookStatsControls.filteredUsers in *.
    cbn. unfold EbookStats.nextPage. lia.
Qed.

Lemma controls_page_in_range evs :
  1 <= EbookStatsControls.page (EbookStatsControls.run evs)
    <= EbookStatsControls.totalPages (EbookStatsControls.run evs).
Proof.
  induction evs as [| ev evs IH] using rev_ind.
  - now apply controls_first_page_in_range.
  - rewrite controls_run_snoc. now apply controls_step_in_range.
Qed.

(** X8: whatever the user does with the tiles, the chips, the search box
    and the Prev and Next buttons, and whenever new data arrives, the page
    number held by the view is between 1 and [totalPages] once the page-reset
    effect has run, so the clamp [safePage] returns it unchanged; an enabled
    Next moves exactly one page forward and an enabled Prev one page back. *)
Theorem page_state_stays_in_range :
  forall evs,
    let c := EbookStatsControls.run evs in
    1 <= EbookStatsControls.page c <= EbookStatsControls.totalPages c /\
    EbookStatsControls.safePage c = EbookStatsControls.page c /\
    (EbookStatsControls.nextEnabled c = true ->
       EbookStatsControls.page (EbookStatsControls.step c EbookStatsControls.ClickNext)
       = EbookStatsControls.page c + 1) /\
    (EbookStatsControls.prevEnabled c = true ->
       EbookStatsControls.page (EbookStatsControls.step c EbookStatsControls.ClickPrev)
       = EbookStatsControls.page c - 1).
Proof.
  intros evs c. pose proof (controls_page_in_range evs) as H. fold c in H.
  assert (Hs : EbookStatsControls.safePage c = EbookStatsControls.page c).
  { unfold EbookStatsControls.safePage. apply safePage_in_range. exact H. }
  split; [exact H |]. split; [exact Hs |].
  split; intros He; cbn; rewrite He; cbn.
  - unfold EbookStatsControls.nextEnabled in He.
    apply andb_true_iff in He as [_ He]. rewrite Hs in He.
    apply negb_true_iff, Z.leb_gt in He.
    unfold EbookStats.nextPage. fold (EbookStatsControls.totalPages c). lia.
  - unfold EbookStatsControls.prevEnabled in He.
    apply andb_true_iff in He as [_ He]. rewrite Hs in He.
    apply negb_true_iff, Z.leb_gt in He.
    unfold EbookStats.prevPage. lia.
Qed.

Lemma page_state_stays_in_range_witness :
  let c := EbookStatsControls.run
             [EbookStatsControls.SetData
                (Some {| EbookStats.ok := true; EbookStats.generated_at := "";
                         EbookStats.window_days := 30;
                         EbookStats.user_summary := Samples.summary0;
                         EbookStats.users := Samples.manyUsers |});
              EbookStatsControls.ClickNext] in
  EbookStatsControls.page (EbookStatsControls.step c EbookStatsControls.ClickNext)
  = EbookStatsControls.page c + 1.
Proof.
  apply (page_state_stays_in_range
           [EbookStatsControls.SetData
              (Some {| EbookStats.ok := true; EbookStats.generated_at := "";
                       EbookStats.window_days := 30;
                       EbookStats.user_summary := Samples.summary0;
                       EbookStats.users := Samples.manyUsers |});
            EbookStatsControls.ClickNext]).
  vm_compute. reflexivity.
Defined.

(** ** The shared suffix of the sibling services *)

Section Split.
Variable sep : ascii.

Lemma split_nonempty s : Shell.split sep s <> [].
Proof.
  destruct s as [| c r]; cbn; [discriminate |].
  destruct (Ascii.eqb c sep); [discriminate |].
  destruct (Shell.split sep r); discriminate.
Qed.

Lemma split_free x : HostNames.free sep x -> Shell.split sep x = [x].
Proof.
  unfold HostNames.free. induction x as [| c x IH]; cbn; [reflexivity |].
  intros H. apply Forall_cons in H as [Hc Hx].
  destruct (Ascii.eqb_spec c sep) as [? | _]; [contradiction |].
  now rewrite (IH Hx).
Qed.

Lemma split_under x h :
  HostNames.free sep x ->
  Shell.split sep (x +:+ String sep h) = x :: Shell.split sep h.
Proof.
  unfold HostNames.free. induction x as [| c x IH].
  - intros _. change ("" +:+ String sep h) with (String sep h).
    cbn [Shell.split]. now rewrite Ascii.eqb_refl.
  - cbn. intros H. apply Forall_cons in H as [Hc Hx].
    change (String c x +:+ String sep h) with (String c (x +:+ String sep h)).
    cbn [Shell.split].
    destruct (Ascii.eqb_spec c sep) as [? | _]; [contradiction |].
    now rewrite (IH Hx).
Qed.

Lemma split_pieces_free s : Forall (HostNames.free sep) (Shell.split sep s).
Proof.
  induction s as [| c r IH]; cbn.
  - repeat constructor.
  - destruct (Ascii.eqb_spec c sep) as [-> | Hc].
    + constructor; [constructor | exact IH].
    + destruct (Shell.split sep r) as [| p ps].
      * repeat constructor. exact Hc.
      * apply Forall_cons in IH as [Hp Hps].
        constructor; [| exact Hps]. constructor; assumption.
Qed.

End Split.

Lemma under_has_dot x h : In "."%char (list_ascii_of_string (HostNames.under x h)).
Proof.
  unfold HostNames.under. induction x as [| c x IH].
  - now left.
  - change (String c x +:+ "." +:+ h) with (String c (x +:+ "." +:+ h)).
    now right.
Qed.

Lemma under_not_localhost x h : HostNames.under x h <> "localhost".
Proof.
  intros E. pose proof (under_has_dot x h) as H. rewrite E in H.
  cbn in H. intuition discriminate.
Qed.

Lemma labels_under x h :
  HostNames.free "." x ->
  Shell.labels (HostNames.under x h)
  = (if JS.truthy x then [x] else []) ++ Shell.labels h.
Proof.
  intros Hx. unfold Shell.labels, HostNames.under.
  change ("." +:+ h) with (String "." h).
  rewrite (split_under "." x h Hx). cbn. now destruct (JS.truthy x).
Qed.

Lemma sliceFrom_last3 {A} (l : list A) :
  (3 <= length l)%nat -> Shell.sliceFrom l (-3) = drop (length l - 3) l.
Proof.
  intros H. unfold Shell.sliceFrom, JS.slice.
  destruct (Z.ltb_spec (-3) 0) as [_ | ?]; [| lia].
  destruct (Z.ltb_spec (Z.of_nat (length l)) 0) as [? | _]; [lia |].
  replace (Z.to_nat (Z.max (Z.of_nat (length l) + -3) 0))
    with (length l - 3)%nat by lia.
  apply take_ge. rewrite length_drop. lia.
Qed.

Lemma deriveServiceSuffix_Some h s :
  Shell.deriveServiceSuffix h = Some s <->
  h <> "localhost" /\ h <> "127.0.0.1" /\
  (3 <= length (Shell.labels h))%nat /\
  s = String.concat "." (drop (length (Shell.labels h) - 3) (Shell.labels h)).
Proof.
  unfold Shell.deriveServiceSuffix.
  repeat case_bool_decide; cbn; try (split; [discriminate | tauto]).
  destruct (Z.ltb_spec (Z.of_nat (length (Shell.labels h))) 3) as [Hl | Hl].
  - split; [discriminate | lia].
  - rewrite sliceFrom_last3 by lia. split.
    + intros [= <-]. repeat split; auto; lia.
    + intros (_ & _ & _ & ->). reflexivity.
Qed.

(** X9: every service hosted one label below a host shares that host's
    suffix: if a host has a suffix, [x.host] has the same one for every
    dot-free label [x].  The single exception is built into the code:
    the name [127.0.0.1] itself has no suffix although [0.0.1] has one. *)
Theorem siblings_share_the_service_suffix :
  forall x h s,
    HostNames.free "." x ->
    Shell.deriveServiceSuffix h = Some s ->
    HostNames.under x h <> "127.0.0.1" ->
    Shell.deriveServiceSuffix (HostNames.under x h) = Some s.
Proof.
  intros x h s Hx Hs Hip.
  apply deriveServiceSuffix_Some in Hs as (_ & _ & Hlen & ->).
  apply deriveServiceSuffix_Some.
  split; [apply under_not_localhost |]. split; [exact Hip |].
  rewrite (labels_under x h Hx), length_app.
  split; [lia |].
  f_equal. rewrite drop_app_ge by (destruct (JS.truthy x); cbn; lia).
  f_equal. destruct (JS.truthy x); cbn; lia.
Qed.

Lemma siblings_share_the_service_suffix_witness :
  Shell.deriveServiceSuffix (HostNames.under "metrics" "a.meme.entermaya.com")
  = Some "meme.entermaya.com".
Proof.
  apply (siblings_share_the_service_suffix "metrics" "a.meme.entermaya.com"
           "meme.entermaya.com").
  - repeat constructor; discriminate.
  - reflexivity.
  - discriminate.
Defined.

(** The exception: [0.0.1] has a suffix, [127.0.0.1] has none. *)
Lemma loopback_address_has_no_suffix :
  Shell.deriveServiceSuffix "0.0.1" = Some "0.0.1" /\
  Shell.deriveServiceSuffix (HostNames.under "127" "0.0.1") = None.
Proof. split; reflexivity. Qed.

Lemma labels_truthy_free h :
  Forall (fun p => JS.truthy p = true /\ HostNames.free "." p) (Shell.labels h).
Proof.
  unfold Shell.labels. apply List.Forall_forall. intros p Hp.
  apply List.filter_In in Hp as [Hin Ht]. split; [exact Ht |].
  pose proof (split_pieces_free "." h) as H.
  rewrite List.Forall_forall in H. now apply H.
Qed.

Lemma labels_of_three a b c :
  HostNames.free "." a -> HostNames.free "." b -> HostNames.free "." c ->
  JS.truthy a = true -> JS.truthy b = true -> JS.truthy c = true ->
  Shell.labels (a +:+ "." +:+ b +:+ "." +:+ c) = [a; b; c].
Proof.
  intros Ha Hb Hc Ta Tb Tc. unfold Shell.labels.
  change (a +:+ "." +:+ b +:+ "." +:+ c)
    with (a +:+ String "." (b +:+ String "." c)).
  rewrite (split_under "." a _ Ha), (split_under "." b _ Hb), (split_free "." c Hc).
  cbn. now rewrite Ta, Tb, Tc.
Qed.

(** X10: a suffix returned by [deriveServiceSuffix] consists of exactly
    three non-empty dot-free labels joined by dots, and it is its own
    suffix: applying the function to its result returns the result. *)
Theorem service_suffix_has_three_labels :
  forall h s,
    Shell.deriveServiceSuffix h = Some s ->
    (exists a b c,
       s = a +:+ "." +:+ b +:+ "." +:+ c /\
       Shell.labels s = [a; b; c] /\
       [a; b; c] `suffix_of` Shell.labels h) /\
    Shell.deriveServiceSuffix s = Some s.
Proof.
  intros h s Hs.
  apply deriveServiceSuffix_Some in Hs as (_ & _ & Hlen & ->).
  pose proof (labels_truthy_free h) as Hall.
  remember (Shell.labels h) as parts eqn:Ep.
  assert (Hsuf : drop (length parts - 3) parts `suffix_of` parts) by apply suffix_drop.
  assert (Hl3 : length (drop (length parts - 3) parts) = 3%nat)
    by (rewrite length_drop; lia).
  destruct (drop (length parts - 3) parts) as [| a [| b [| c [| d t]]]];
    try discriminate.
  assert (Hin : Forall (fun p => JS.truthy p = true /\ HostNames.free "." p) [a; b; c]).
  { destruct Hsuf as [pre ->]. apply Forall_app in Hall as [_ H]. exact H. }
  apply Forall_cons in Hin as [[Ta Ha] Hin].
  apply Forall_cons in Hin as [[Tb Hb] Hin].
  apply Forall_cons in Hin as [[Tc Hc] _].
  change (String.concat "." [a; b; c]) with (a +:+ "." +:+ b +:+ "." +:+ c).
  pose proof (labels_of_three a b c Ha Hb Hc Ta Tb Tc) as Hlab.
  split.
  - exists a, b, c. repeat split; [exact Hlab | exact Hsuf].
  - apply deriveServiceSuffix_Some. rewrite Hlab.
    split; [apply (under_not_localhost a (b +:+ "." +:+ c)) |].
    split; [| split; [cbn; lia | reflexivity]].
    intros E. rewrite E in Hlab. vm_compute in Hlab. discriminate.
Qed.

Lemma service_suffix_has_three_labels_witness :
  (exists a b c,
     "meme.entermaya.com" = a +:+ "." +:+ b +:+ "." +:+ c /\
     Shell.labels "meme.entermaya.com" = [a; b; c] /\
     [a; b; c] `suffix_of` Shell.labels "metrics.meme.entermaya.com") /\
  Shell.deriveServiceSuffix "meme.entermaya.com" = Some "meme.entermaya.com".
Proof.
  apply (service_suffix_has_three_labels "metrics.meme.entermaya.com"
           "meme.entermaya.com").
  reflexivity.
Defined.

(** X11: the link of an external card.  A card with a [url] is never
    disabled and links to that [url] on every host; a disabled card always
    has the inert link '#' and no [target]; and on [localhost], on
    [127.0.0.1] and on every host with fewer than three labels, a card
    without [url] is disabled. *)
Theorem external_card_links :
  forall hostname card,
    (Shell.truthyOpt (Shell.url card) = true ->
       Shell.externalDisabled hostname card = false /\
       Some (Shell.externalHref hostname card) = Shell.url card) /\
    (Shell.externalDisabled hostname card = true ->
       Shell.externalHref hostname card = "#" /\
       Shell.externalTarget hostname card = None) /\
    (Shell.truthyOpt (Shell.url card) = false ->
     hostname = "localhost" \/ hostname = "127.0.0.1" \/
     (length (Shell.labels hostname) < 3)%nat ->
       Shell.externalDisabled hostname card = true).
Proof.
  intros hostname card.
  unfold Shell.externalDisabled, Shell.externalHref, Shell.externalTarget,
    Shell.externalDisabled.
  split; [| split].
  - intros Hu. rewrite Hu. split; [reflexivity |].
    destruct (Shell.url card); [reflexivity | discriminate].
  - intros Hd. rewrite Hd.
    apply andb_true_iff in Hd as [Hu Hs].
    apply negb_true_iff in Hu, Hs. rewrite Hu, Hs. split; reflexivity.
  - intros Hu Hhost. rewrite Hu. cbn.
    destruct (Shell.deriveServiceSuffix hostname) as [s |] eqn:E; [| reflexivity].
    apply deriveServiceSuffix_Some in E as (H1 & H2 & H3 & _).
    destruct Hhost as [? | [? | ?]]; [contradiction | contradiction | lia].
Qed.

Lemma external_card_links_witness :
  Shell.externalDisabled "localhost"
    {| Shell.title := "Email Analytics"; Shell.description := "";
       Shell.subdomain := Some "email"; Shell.url := None;
       Shell.badge := None; Shell.backgroundSrc := None |} = true.
Proof.
  apply (external_card_links "localhost"
           {| Shell.title := "Email Analytics"; Shell.description := "";
              Shell.subdomain := Some "email"; Shell.url := None;
              Shell.badge := None; Shell.backgroundSrc := None |}).
  - reflexivity.
  - left. reflexivity.
Defined.

(** ** Login and logout *)

(** X12: [onLogin] ends authenticated exactly when both the login request
    and the session check that follows it succeed; then the session is
    stored, the password field is emptied and no error is shown.  In every
    other case the user is signed out, the session is dropped, the typed
    password is kept and an error message is set.  [onLogout] signs the user
    out whether its request succeeds or fails.  Both always release [busy]. *)
Theorem login_and_logout_outcomes :
  forall login verify logout st,
    let li := Shell.onLogin login verify st in
    let lo := Shell.onLogout logout st in
    Shell.busy li = false /\
    (Shell.auth li = App.authed <->
       exists body v, login = StatsView.Resolved body /\ verify = StatsView.Resolved v) /\
    (forall body v, login = StatsView.Resolved body -> verify = StatsView.Resolved v ->
       Shell.session li = Some v /\ Shell.password li = "" /\ Shell.error li = None) /\
    (Shell.auth li <> App.authed ->
       Shell.auth li = App.not_authed /\ Shell.session li = None /\
       Shell.password li = Shell.password st /\ is_Some (Shell.error li)) /\
    lo = {| Shell.auth := App.not_authed; Shell.session := None;
            Shell.password := Shell.password st; Shell.busy := false;
            Shell.error := None |}.
Proof.
  intros login verify logout st li lo. subst li lo.
  split; [reflexivity |].
  split.
  { destruct login as [body | e]; [destruct verify as [v | e] |]; cbn; split;
      try discriminate; eauto;
      intros (b' & v' & H1 & H2); discriminate. }
  split.
  { intros body v -> ->. repeat split. }
  split.
  { destruct login as [body | e]; [destruct verify as [v | e] |]; cbn;
      intros H; try congruence; repeat split; eexists; reflexivity. }
  destruct logout; reflexivity.
Qed.

Lemma login_and_logout_outcomes_witness :
  let li := Shell.onLogin
              (StatsView.Resolved {| Shell.okFlag := true |})
              (StatsView.Rejected (StatsView.ErrorObject "Request failed (401)"))
              {| Shell.auth := App.not_authed; Shell.session := None;
                 Shell.password := "hunter2"; Shell.busy := false;
                 Shell.error := None |} in
  Shell.auth li = App.not_authed /\ Shell.session li = None /\
  Shell.password li = "hunter2" /\ is_Some (Shell.error li).
Proof.
  apply (login_and_logout_outcomes
           (StatsView.Resolved {| Shell.okFlag := true |})
           (StatsView.Rejected (StatsView.ErrorObject "Request failed (401)"))
           (StatsView.Resolved {| Shell.okFlag := true |})
           {| Shell.auth := App.not_authed; Shell.session := None;
              Shell.password := "hunter2"; Shell.busy := false;
              Shell.error := None |}).
  discriminate.
Defined.

Lemma length_zero_iff_empty s : Z.of_nat (String.length s) = 0 <-> s = "".
Proof. destruct s; cbn; split; intros H; try reflexivity; try discriminate; lia. Qed.

(** X13: the Enter button of the login form is disabled exactly while a
    request is running or the password consists of white space only (the
    empty password included). *)
Theorem login_button_needs_a_password :
  forall st,
    Shell.loginDisabled st = true <->
    Shell.busy st = true \/ Render.blank (Shell.password st).
Proof.
  intros st. unfold Shell.loginDisabled.
  rewrite orb_true_iff, Z.eqb_eq, length_zero_iff_empty, trim_empty_iff.
  reflexivity.
Qed.

(** ** The first revision: one request at a time *)

Lemma v0_run_snoc evs ev :
  EbookStatsV0.run (evs ++ [ev]) = EbookStatsV0.step (EbookStatsV0.run evs) ev.
Proof. unfold EbookStatsV0.run. now rewrite fold_left_app. Qed.

Lemma v0_counts evs :
  let v := EbookStatsV0.run evs in
  EbookStatsV0.getsInFlight v
    = (if StatsView.loading (StatsView.hooks (EbookStatsV0.world v)) then 1 else 0)%nat /\
  EbookStatsV0.postsInFlight v = (if EbookStatsV0.syncing v then 1 else 0)%nat /\
  (StatsView.loading (StatsView.hooks (EbookStatsV0.world v)) = true ->
   EbookStatsV0.syncing v = false).
Proof.
  induction evs as [| ev evs IH] using rev_ind; [repeat split |].
  rewrite v0_run_snoc. cbn zeta in *.
  destruct IH as (Hg & Hp & Hx).
  set (v := EbookStatsV0.run evs) in *.
  destruct ev as [| o | o]; cbn; unfold EbookStatsV0.syncDisabled;
    destruct (EbookStatsV0.syncing v) eqn:Es,
      (StatsView.loading (StatsView.hooks (EbookStatsV0.world v))) eqn:El,
      (EbookStatsV0.getsInFlight v) as [| g] eqn:Eg,
      (EbookStatsV0.postsInFlight v) as [| p] eqn:Ep;
    cbn in *; try discriminate; try (specialize (Hx eq_refl); discriminate);
    try destruct o; cbn; rewrite ?Es, ?El, ?Eg, ?Ep;
    repeat split; intros; try congruence; try lia.
Qed.

(** X14: in the first revision of the view, where the Sync button belongs
    to the view and is disabled while [syncing] or [loading], at most one
    request is in flight at any time while the view is mounted: no refresh
    starts during the initial load or during another refresh; [loading] is
    set exactly while the GET is in flight and [syncing] exactly while the
    POST is. *)
Theorem first_revision_has_one_request_in_flight :
  forall evs,
    let v := EbookStatsV0.run evs in
    (EbookStatsV0.getsInFlight v + EbookStatsV0.postsInFlight v <= 1)%nat /\
    (EbookStatsV0.getsInFlight v = 1%nat <->
       StatsView.loading (StatsView.hooks (EbookStatsV0.world v)) = true) /\
    (EbookStatsV0.postsInFlight v = 1%nat <-> EbookStatsV0.syncing v = true) /\
    (EbookStatsV0.syncDisabled v = true <->
       (EbookStatsV0.getsInFlight v + EbookStatsV0.postsInFlight v = 1)%nat).
Proof.
  intros evs v. destruct (v0_counts evs) as (Hg & Hp & Hx). fold v in Hg, Hp, Hx.
  unfold EbookStatsV0.syncDisabled. rewrite Hg, Hp.
  destruct (StatsView.loading (StatsView.hooks (EbookStatsV0.world v))) eqn:El;
    [rewrite (Hx eq_refl) |]; destruct (EbookStatsV0.syncing v) eqn:Es; cbn;
    repeat split; intros; try lia; try congruence.
Qed.

(** ** Invariants of the portal *)

Section PortalFacts.
Implicit Types (rs : list Portal.Request) (r : Portal.Request) (i : nat)
  (v : App.View) (s : Portal.System) (st : App.State).

Local Abbreviation newRequest i v m :=
  {| Portal.owner := i; Portal.ownerView := v; Portal.method := m;
     Portal.cancelled := false |}.

Lemma cancelOwned_live i which rs r :
  In r (Portal.cancelOwned i which rs) -> Portal.cancelled r = false ->
  In r rs /\ Nat.eqb (Portal.owner r) i && which (Portal.method r) = false.
Proof.
  unfold Portal.cancelOwned. intros Hin Hlive.
  apply in_map_iff in Hin as (r0 & <- & Hin).
  destruct (Nat.eqb (Portal.owner r0) i && which (Portal.method r0)) eqn:E.
  - cbn in Hlive. discriminate.
  - split; [exact Hin | exact E].
Qed.

Lemma cancelOwned_no_liveRefresh i which rs :
  (forall r, In r rs -> Portal.cancelled r = false -> Portal.owner r = i) ->
  which StatsView.POST = true ->
  List.filter PortalInvariant.liveRefresh (Portal.cancelOwned i which rs) = [].
Proof.
  intros Hown Hw. induction rs as [| r rs IH]; [reflexivity |].
  cbn [Portal.cancelOwned map List.filter].
  fold (Portal.cancelOwned i which rs).
  rewrite IH by (intros r' Hr'; apply Hown; now right).
  destruct (Nat.eqb (Portal.owner r) i && which (Portal.method r)) eqn:E.
  - unfold PortalInvariant.liveRefresh. cbn. now rewrite andb_false_r.
  - destruct (PortalInvariant.liveRefresh r) eqn:Hl; [| reflexivity].
    exfalso. unfold PortalInvariant.liveRefresh in Hl.
    apply andb_true_iff in Hl as [Hm Hc]. apply negb_true_iff in Hc.
    destruct (Portal.method r); [discriminate |].
    rewrite (Hown r (or_introl eq_refl) Hc), Nat.eqb_refl, Hw in E. discriminate.
Qed.

Lemma In_runRefreshEffect i v seq rs r :
  In r (Portal.runRefreshEffect i v seq rs) <->
  In r rs \/ (seq <> 0 /\ r = newRequest i v StatsView.POST).
Proof.
  unfold Portal.runRefreshEffect.
  destruct (Z.eqb_spec seq 0) as [E | E].
  - intuition.
  - rewrite in_app_iff. cbn. intuition.
Qed.

Lemma In_mountView i v st rs r :
  In r (Portal.mountView i v st rs) <->
  In r rs \/ r = newRequest i v StatsView.GET \/
  (App.refreshSeq v st <> 0 /\ r = newRequest i v StatsView.POST).
Proof.
  unfold Portal.mountView. rewrite In_runRefreshEffect, in_app_iff. cbn.
  intuition.
Qed.

Lemma liveRefresh_runRefreshEffect i v seq rs :
  List.filter PortalInvariant.liveRefresh (Portal.runRefreshEffect i v seq rs)
  = List.filter PortalInvariant.liveRefresh rs
    ++ (if seq =? 0 then [] else [newRequest i v StatsView.POST]).
Proof.
  unfold Portal.runRefreshEffect.
  destruct (seq =? 0); [now rewrite app_nil_r |].
  now rewrite List.filter_app.
Qed.

Lemma liveRefresh_mountView i v st rs :
  List.filter PortalInvariant.liveRefresh (Portal.mountView i v st rs)
  = List.filter PortalInvariant.liveRefresh rs
    ++ (if App.refreshSeq v st =? 0 then [] else [newRequest i v StatsView.POST]).
Proof.
  unfold Portal.mountView.
  rewrite liveRefresh_runRefreshEffect, List.filter_app. cbn.
  now rewrite app_nil_r.
Qed.

Lemma mounted_commit_view st s :
  snd <$> Portal.mounted (Portal.commit st s) = App.rendered st.
Proof.
  unfold Portal.commit.
  destruct (Portal.mounted s) as [[i v] |] eqn:Em, (App.rendered st) as [v' |];
    try reflexivity.
  case_bool_decide as Ev; [| reflexivity].
  subst v'. destruct (_ =? _); reflexivity.
Qed.

(** The five invariants survive a commit to a state [st] in which the
    counters are sound, provided a flag that is set in [st] for the view
    that stays mounted with an unchanged counter has its refresh in flight. *)
Lemma commit_keeps_invariant s st :
  (forall r, r ∈ Portal.inflight s -> Portal.cancelled r = false ->
     Portal.mounted s = Some (Portal.owner r, Portal.ownerView r)) ->
  (length (List.filter PortalInvariant.liveRefresh (Portal.inflight s)) <= 1)%nat ->
  (forall v, 0 <= App.refreshSeq v st /\
     (App.syncing v st = true -> 0 < App.refreshSeq v st)) ->
  (forall i v, Portal.mounted s = Some (i, v) -> App.rendered st = Some v ->
     App.refreshSeq v (Portal.app s) = App.refreshSeq v st ->
     App.syncing v st = true ->
     exists r, r ∈ Portal.inflight s /\ Portal.owner r = i /\
               PortalInvariant.liveRefresh r = true) ->
  PortalInvariant.Inv (Portal.commit st s).
Proof.
  intros Hlive Hone Hseq Hflag.
  assert (Hlive' : forall r, In r (Portal.inflight s) -> Portal.cancelled r = false ->
            Portal.mounted s = Some (Portal.owner r, Portal.ownerView r)).
  { intros r Hr. apply Hlive. now apply list_elem_of_In. }
  split.
  - rewrite app_commit. apply mounted_commit_view.
  - (* live requests belong to the mounted instance *)
    intros r Hr Hc. apply list_elem_of_In in Hr. revert Hr.
    unfold Portal.commit.
    destruct (Portal.mounted s) as [[i v] |] eqn:Em,
      (App.rendered st) as [v' |] eqn:Er; cbn [Portal.inflight Portal.mounted Portal.app].
    + case_bool_decide as Ev; cbn [Portal.inflight Portal.mounted Portal.app].
      * subst v'. destruct (_ =? _); cbn [Portal.inflight Portal.mounted Portal.app].
        { intros Hr. exact (Hlive' r Hr Hc). }
        { rewrite In_runRefreshEffect. intros [Hr | [_ ->]]; [| reflexivity].
          apply cancelOwned_live in Hr as [Hr _]; [| exact Hc].
          exact (Hlive' r Hr Hc). }
      * rewrite In_mountView. intros [Hr | [-> | [_ ->]]]; try reflexivity.
        apply cancelOwned_live in Hr as [Hr E]; [| exact Hc].
        pose proof (Hlive' r Hr Hc) as Hm. injection Hm as Hi _.
        rewrite <- Hi, Nat.eqb_refl in E. discriminate.
    + intros Hr. apply cancelOwned_live in Hr as [Hr E]; [| exact Hc].
      pose proof (Hlive' r Hr Hc) as Hm. injection Hm as Hi _.
      rewrite <- Hi, Nat.eqb_refl in E. discriminate.
    + rewrite In_mountView. intros [Hr | [-> | [_ ->]]]; try reflexivity.
      pose proof (Hlive' r Hr Hc). discriminate.
    + intros Hr. pose proof (Hlive' r Hr Hc). discriminate.
  - rewrite app_commit. exact Hseq.
  - (* at most one live refresh *)
    assert (Hown : forall i v, Portal.mounted s = Some (i, v) ->
              forall r, In r (Portal.inflight s) -> Portal.cancelled r = false ->
                        Portal.owner r = i).
    { intros i v Em r Hr Hc. pose proof (Hlive' r Hr Hc) as Hm.
      rewrite Em in Hm. now injection Hm. }
    unfold Portal.commit.
    destruct (Portal.mounted s) as [[i v] |] eqn:Em,
      (App.rendered st) as [v' |] eqn:Er; cbn [Portal.inflight Portal.mounted Portal.app].
    + case_bool_decide as Ev; cbn [Portal.inflight Portal.mounted Portal.app].
      * destruct (_ =? _); cbn [Portal.inflight Portal.mounted Portal.app]; [exact Hone |].
        rewrite liveRefresh_runRefreshEffect,
          (cancelOwned_no_liveRefresh i _ _ (Hown i v eq_refl) eq_refl).
        destruct (_ =? 0); cbn; lia.
      * rewrite liveRefresh_mountView,
          (cancelOwned_no_liveRefresh i _ _ (Hown i v eq_refl) eq_refl).
        destruct (_ =? 0); cbn; lia.
    + rewrite (cancelOwned_no_liveRefresh i _ _ (Hown i v eq_refl) eq_refl).
      cbn. lia.
    + rewrite liveRefresh_mountView.
      assert (List.filter PortalInvariant.liveRefresh (Portal.inflight s) = []) as ->.
      { destruct (List.filter PortalInvariant.liveRefresh (Portal.inflight s))
          as [| r t] eqn:Ef; [reflexivity |].
        assert (In r (List.filter PortalInvariant.liveRefresh (Portal.inflight s)))
          as Hr by (rewrite Ef; now left).
        apply List.filter_In in Hr as [Hr Hl].
        unfold PortalInvariant.liveRefresh in Hl.
        apply andb_true_iff in Hl as [_ Hl]. apply negb_true_iff in Hl.
        pose proof (Hlive' r Hr Hl). discriminate. }
      destruct (_ =? 0); cbn; lia.
    + exact Hone.
  - (* a set flag of the mounted view has its refresh in flight *)
    intros i' v'' Hm' Hsync. rewrite app_commit in Hsync.
    destruct (Hseq v'') as [_ Hpos]. specialize (Hpos Hsync).
    revert Hm'. unfold Portal.commit.
    destruct (Portal.mounted s) as [[i v] |] eqn:Em,
      (App.rendered st) as [v' |] eqn:Er; cbn [Portal.inflight Portal.mounted Portal.app].
    + case_bool_decide as Ev; cbn [Portal.inflight Portal.mounted Portal.app].
      * subst v'. destruct (Z.eqb_spec (App.refreshSeq v (Portal.app s))
                             (App.refreshSeq v st)) as [Es | Es]; cbn [Portal.inflight Portal.mounted Portal.app].
        { intros [= <- <-]. apply (Hflag _ _ eq_refl); auto. }
        { intros [= <- <-].
          exists (newRequest i v StatsView.POST).
          split; [| split; reflexivity].
          apply list_elem_of_In, In_runRefreshEffect. right. split; [lia | reflexivity]. }
      * intros [= <- <-].
        exists (newRequest (Portal.nextInstance s) v' StatsView.POST).
        split; [| split; reflexivity].
        apply list_elem_of_In, In_mountView. right. right. split; [lia | reflexivity].
    + discriminate.
    + intros [= <- <-].
      exists (newRequest (Portal.nextInstance s) v' StatsView.POST).
      split; [| split; reflexivity].
      apply list_elem_of_In, In_mountView. right. right. split; [lia | reflexivity].
    + discriminate.
Qed.

End PortalFacts.

Lemma filter_length_sublist {A} (f : A -> bool) (l1 l2 : list A) :
  l1 `sublist_of` l2 ->
  (length (List.filter f l1) <= length (List.filter f l2))%nat.
Proof.
  induction 1 as [| x l1 l2 _ IH | x l1 l2 _ IH]; cbn; [lia | |];
    destruct (f x); cbn; lia.
Qed.

Lemma elem_of_delete_other {A} (l : list A) n x y :
  l !! n = Some x -> y ∈ l -> y <> x -> y ∈ delete n l.
Proof.
  intros Hn Hy Hne. rewrite delete_take_drop.
  rewrite <- (take_drop_middle l n x Hn) in Hy.
  rewrite elem_of_app, elem_of_cons in Hy. rewrite elem_of_app. tauto.
Qed.

Lemma init_invariant pathname : PortalInvariant.Inv (Portal.init pathname).
Proof.
  split; cbn.
  - reflexivity.
  - intros r Hr. now apply elem_of_nil in Hr.
  - intros []; cbn; split; (lia || discriminate).
  - lia.
  - discriminate.
Qed.

Lemma rendered_handleSync st : App.rendered (App.handleSync st) = App.rendered st.
Proof.
  unfold App.handleSync.
  destruct (App.isEbookPage st); [reflexivity |].
  destruct (App.isPledgePage st); reflexivity.
Qed.

Lemma seq_handleSync_sound st :
  (forall v, 0 <= App.refreshSeq v st /\
     (App.syncing v st = true -> 0 < App.refreshSeq v st)) ->
  forall v, 0 <= App.refreshSeq v (App.handleSync st) /\
     (App.syncing v (App.handleSync st) = true -> 0 < App.refreshSeq v (App.handleSync st)).
Proof.
  intros H v. pose proof (H App.EbookStatsView) as [He He'].
  pose proof (H App.PledgeManagerStatsView) as [Hp Hp'].
  unfold App.handleSync.
  destruct (App.isEbookPage st); [| destruct (App.isPledgePage st)];
    destruct v; cbn in *; split; intros; auto; lia.
Qed.

Lemma step_keeps_invariant s ev :
  PortalInvariant.Inv s -> PortalInvariant.Inv (Portal.step s ev).
Proof.
  intros [Hm Hl Hq Ho Hf].
  destruct ev as [ok | path | | n]; cbn [Portal.step].
  - apply commit_keeps_invariant; [exact Hl | exact Ho | |].
    + intros v. destruct (Hq v). destruct v; cbn in *; auto.
    + intros i v Em _ _ Hs. apply (Hf i v Em). destruct v; exact Hs.
  - apply commit_keeps_invariant; [exact Hl | exact Ho | |].
    + intros v. destruct (Hq v). destruct v; cbn in *; auto.
    + intros i v Em _ _ Hs. apply (Hf i v Em). destruct v; exact Hs.
  - destruct (App.syncButtonClickable (Portal.app s)) eqn:Hc; [| now split].
    apply commit_keeps_invariant; [exact Hl | exact Ho | |].
    + now apply seq_handleSync_sound.
    + intros i v Em Hr Hs _. exfalso.
      rewrite rendered_handleSync in Hr.
      destruct (refreshSeq_handleSync _ _ Hr) as [Hplus _]. lia.
  - destruct (Portal.inflight s !! n) as [r |] eqn:Hn; [| now split].
    assert (Hr : r ∈ Portal.inflight s) by (eapply list_elem_of_lookup_2, Hn).
    change (Portal.isPOST (Portal.method r) && negb (Portal.cancelled r))
      with (PortalInvariant.liveRefresh r).
    set (s' := {| Portal.app := Portal.app s; Portal.mounted := Portal.mounted s;
                  Portal.nextInstance := Portal.nextInstance s;
                  Portal.inflight := delete n (Portal.inflight s) |}).
    assert (Hl' : forall r0, r0 ∈ Portal.inflight s' -> Portal.cancelled r0 = false ->
              Portal.mounted s' = Some (Portal.owner r0, Portal.ownerView r0)).
    { intros r0 Hr0. apply Hl. eapply list_elem_of_delete_inv, Hr0. }
    assert (Ho' : (length (List.filter PortalInvariant.liveRefresh (Portal.inflight s')) <= 1)%nat).
    { etransitivity; [| exact Ho]. apply filter_length_sublist, sublist_delete. }
    destruct (PortalInvariant.liveRefresh r) eqn:Hlr.
    + assert (Hc : Portal.cancelled r = false).
      { unfold PortalInvariant.liveRefresh in Hlr.
        apply andb_true_iff in Hlr as [_ Hc]. now apply negb_true_iff in Hc. }
      pose proof (Hl r Hr Hc) as Hmr.
      apply commit_keeps_invariant; [exact Hl' | exact Ho' | |].
      * intros v. destruct (Hq v) as [H0 Hpos].
        rewrite refreshSeq_onRefreshComplete. split; [exact H0 |].
        intros Hs. apply Hpos.
        destruct (Portal.ownerView r), v; cbn in *; congruence.
      * intros i v Em _ _ Hs. exfalso.
        change (Portal.mounted s') with (Portal.mounted s) in Em.
        rewrite Em in Hmr. injection Hmr as _ Hv. subst v.
        destruct (Portal.ownerView r); cbn in Hs; discriminate.
    + split; [exact Hm | exact Hl' | exact Hq | exact Ho' |].
      intros i v Em Hs. destruct (Hf i v Em Hs) as (r0 & Hr0 & Hi & Hlr0).
      exists r0. split; [| auto].
      apply (elem_of_delete_other _ n r); auto. congruence.
Qed.

Lemma reachable_invariant s : Portal.reachable s -> PortalInvariant.Inv s.
Proof.
  intros (pathname & evs & ->).
  induction evs as [| ev evs IH] using rev_ind.
  - apply init_invariant.
  - rewrite run_snoc. now apply step_keeps_invariant.
Qed.

Lemma rendered_Some st v :
  App.rendered st = Some v ->
  App.syncButtonRendered st = true /\ App.isSyncing st = App.syncing v st.
Proof.
  unfold App.rendered, App.syncButtonRendered, App.isSubPage, App.isSyncing.
  case_bool_decide as Ha; [discriminate |].
  rewrite bool_decide_eq_true_2
    by (destruct (decide (App.auth st = App.authed)); tauto).
  destruct (App.isEbookPage st); [intros [= <-]; split; reflexivity |].
  destruct (App.isPledgePage st); [intros [= <-]; split; reflexivity | discriminate].
Qed.

(** X15: in every state the portal can reach, the view instance on screen
    is the one the shell renders, every request whose closure has not been
    cancelled was issued by that instance, and among all the refreshes in
    flight at most one is not cancelled: at most one response will ever call
    [onRefreshComplete]. *)
Theorem one_live_refresh_at_a_time :
  forall s,
    Portal.reachable s ->
    snd <$> Portal.mounted s = App.rendered (Portal.app s) /\
    (forall r, r ∈ Portal.inflight s -> Portal.cancelled r = false ->
       Portal.mounted s = Some (Portal.owner r, Portal.ownerView r)) /\
    (length (List.filter PortalInvariant.liveRefresh (Portal.inflight s)) <= 1)%nat.
Proof.
  intros s Hs. destruct (reachable_invariant s Hs) as [Hm Hl _ Ho _].
  auto.
Qed.

Lemma one_live_refresh_at_a_time_witness :
  let s := Portal.run "/ebook"
             [Portal.Authenticated true; Portal.ClickSync; Portal.Settle 1;
              Portal.Navigate "/"; Portal.Navigate "/ebook"; Portal.ClickSync] in
  snd <$> Portal.mounted s = App.rendered (Portal.app s) /\
  (forall r, r ∈ Portal.inflight s -> Portal.cancelled r = false ->
     Portal.mounted s = Some (Portal.owner r, Portal.ownerView r)) /\
  (length (List.filter PortalInvariant.liveRefresh (Portal.inflight s)) <= 1)%nat.
Proof.
  apply one_live_refresh_at_a_time.
  exists "/ebook",
    [Portal.Authenticated true; Portal.ClickSync; Portal.Settle 1;
     Portal.Navigate "/"; Portal.Navigate "/ebook"; Portal.ClickSync].
  reflexivity.
Defined.

Lemma settle_effect_on_shell s n :
  Portal.reachable s ->
  Portal.app (Portal.step s (Portal.Settle n)) = Portal.app s \/
  exists r,
    Portal.inflight s !! n = Some r /\
    Portal.method r = StatsView.POST /\ Portal.cancelled r = false /\
    Portal.mounted s = Some (Portal.owner r, Portal.ownerView r) /\
    Portal.app (Portal.step s (Portal.Settle n))
    = App.onRefreshComplete (Portal.ownerView r) (Portal.app s).
Proof.
  intros Hs. destruct (reachable_invariant s Hs) as [_ Hl _ _ _].
  cbn [Portal.step].
  destruct (Portal.inflight s !! n) as [r |] eqn:Hn; [| now left].
  destruct (Portal.method r) eqn:Hmeth; cbn; [now left |].
  destruct (Portal.cancelled r) eqn:Hc; cbn; [now left |].
  right. exists r. rewrite app_commit. repeat split; auto.
  apply Hl; [eapply list_elem_of_lookup_2, Hn | exact Hc].
Qed.

(** X16: a response can change the state of the shell in one way only: it
    is the response to a refresh issued by the view instance on screen,
    whose closure is not cancelled, and the change is the call of
    [onRefreshComplete] for that view.  Every other response, in particular
    every response that arrives after its view has left the screen, leaves
    the shell as it is. *)
Theorem only_the_live_refresh_touches_the_shell :
  forall s n,
    Portal.reachable s ->
    Portal.app (Portal.step s (Portal.Settle n)) = Portal.app s \/
    exists r,
      Portal.inflight s !! n = Some r /\
      Portal.method r = StatsView.POST /\ Portal.cancelled r = false /\
      Portal.mounted s = Some (Portal.owner r, Portal.ownerView r) /\
      Portal.app (Portal.step s (Portal.Settle n))
      = App.onRefreshComplete (Portal.ownerView r) (Portal.app s).
Proof. intros s n. apply settle_effect_on_shell. Qed.

Lemma only_the_live_refresh_touches_the_shell_witness :
  let s := Portal.run "/ebook"
             [Portal.Authenticated true; Portal.ClickSync; Portal.Navigate "/"] in
  Portal.app (Portal.step s (Portal.Settle 1)) = Portal.app s \/
  exists r,
    Portal.inflight s !! 1%nat = Some r /\
    Portal.method r = StatsView.POST /\ Portal.cancelled r = false /\
    Portal.mounted s = Some (Portal.owner r, Portal.ownerView r) /\
    Portal.app (Portal.step s (Portal.Settle 1))
    = App.onRefreshComplete (Portal.ownerView r) (Portal.app s).
Proof.
  apply only_the_live_refresh_touches_the_shell.
  exists "/ebook",
    [Portal.Authenticated true; Portal.ClickSync; Portal.Navigate "/"].
  reflexivity.
Defined.

(** X17: the Sync button cannot stay disabled for ever: whenever a stats
    view is on screen with its syncing flag set, a refresh of that view is
    in flight whose settling (with success or failure) lowers the flag and
    makes the button clickable again. *)
Theorem sync_button_is_never_stuck :
  forall s v,
    Portal.reachable s ->
    App.rendered (Portal.app s) = Some v ->
    App.isSyncing (Portal.app s) = true ->
    exists n r,
      Portal.inflight s !! n = Some r /\ Portal.ownerView r = v /\
      PortalInvariant.liveRefresh r = true /\
      App.syncButtonClickable (Portal.app (Portal.step s (Portal.Settle n))) = true.
Proof.
  intros s v Hs Hr Hsync.
  destruct (reachable_invariant s Hs) as [Hm Hl _ _ Hf].
  destruct (rendered_Some _ _ Hr) as [Hbtn Hflag].
  rewrite Hr in Hm.
  destruct (Portal.mounted s) as [[i v0] |] eqn:Em; [| discriminate].
  injection Hm as ->.
  rewrite Hflag in Hsync.
  destruct (Hf i v eq_refl Hsync) as (r & Hin & Hi & Hlr).
  apply list_elem_of_lookup_1 in Hin as Hn. destruct Hn as [n Hn].
  assert (Hc : Portal.cancelled r = false).
  { unfold PortalInvariant.liveRefresh in Hlr.
    apply andb_true_iff in Hlr as [_ Hc]. now apply negb_true_iff in Hc. }
  pose proof (Hl r Hin Hc) as Hmr. injection Hmr as _ Hv.
  exists n, r. repeat split; auto.
  cbn [Portal.step]. rewrite Hn.
  change (Portal.isPOST (Portal.method r) && negb (Portal.cancelled r))
    with (PortalInvariant.liveRefresh r).
  rewrite Hlr, app_commit. cbn [Portal.app]. rewrite <- Hv.
  unfold App.syncButtonClickable, App.syncButtonDisabled.
  assert (Hr' : App.rendered (App.onRefreshComplete v (Portal.app s)) = Some v)
    by (destruct v; exact Hr).
  destruct (rendered_Some _ _ Hr') as [-> ->].
  destruct v; reflexivity.
Qed.

Lemma sync_button_is_never_stuck_witness :
  let s := Portal.run "/ebook"
             [Portal.Authenticated true; Portal.ClickSync; Portal.Navigate "/";
              Portal.Navigate "/ebook"] in
  exists n r,
    Portal.inflight s !! n = Some r /\ Portal.ownerView r = App.EbookStatsView /\
    PortalInvariant.liveRefresh r = true /\
    App.syncButtonClickable (Portal.app (Portal.step s (Portal.Settle n))) = true.
Proof.
  apply sync_button_is_never_stuck.
  - exists "/ebook",
      [Portal.Authenticated true; Portal.ClickSync; Portal.Navigate "/";
       Portal.Navigate "/ebook"].
    reflexivity.
  - reflexivity.
  - reflexivity.
Defined.

Lemma commit_same_state s :
  snd <$> Portal.mounted s = App.rendered (Portal.app s) ->
  Portal.commit (Portal.app s) s = s.
Proof.
  intros Hm. unfold Portal.commit.
  destruct (Portal.mounted s) as [[i v] |] eqn:Em,
    (App.rendered (Portal.app s)) as [v' |]; try discriminate.
  - injection Hm as <-. rewrite bool_decide_eq_true_2, Z.eqb_refl by reflexivity.
    destruct s; cbn in *. now rewrite Em.
  - destruct s; cbn in *. now rewrite Em.
Qed.

(** X18: navigating to the path already shown changes nothing: the view
    is not remounted, no effect runs again and no request is started or
    cancelled; and signing out unmounts the view and cancels every request
    in flight, so that no response can change the shell afterwards. *)
Theorem renavigation_is_idle_and_logout_cancels_everything :
  forall s,
    Portal.reachable s ->
    Portal.step s (Portal.Navigate (App.currentPath (Portal.app s))) = s /\
    let out := Portal.step s (Portal.Authenticated false) in
    Portal.mounted out = None /\
    (forall r, r ∈ Portal.inflight out -> Portal.cancelled r = true) /\
    (forall n, Portal.app (Portal.step out (Portal.Settle n)) = Portal.app out).
Proof.
  intros s Hs. split.
  - destruct (reachable_invariant s Hs) as [Hm _ _ _ _].
    cbn [Portal.step].
    replace (App.setCurrentPath (App.currentPath (Portal.app s)) (Portal.app s))
      with (Portal.app s) by (destruct (Portal.app s); reflexivity).
    now apply commit_same_state.
  - intros out.
    assert (Hout : Portal.reachable out).
    { destruct Hs as (p & evs & ->). exists p, (evs ++ [Portal.Authenticated false]).
      subst out. now rewrite run_snoc. }
    destruct (reachable_invariant out Hout) as [Hm Hl _ _ _].
    assert (Hnone : Portal.mounted out = None).
    { subst out. cbn [Portal.step] in *. rewrite app_commit in Hm.
      cbn in Hm. destruct (Portal.mounted _); [discriminate | reflexivity]. }
    split; [exact Hnone |]. split.
    + intros r Hr. destruct (Portal.cancelled r) eqn:Hc; [reflexivity |].
      pose proof (Hl r Hr Hc) as H. rewrite Hnone in H. discriminate.
    + intros n.
      destruct (settle_effect_on_shell out n Hout)
        as [E | (r & _ & _ & _ & Hmr & _)]; [exact E |].
      rewrite Hnone in Hmr. discriminate.
Qed.

Lemma renavigation_is_idle_and_logout_cancels_everything_witness :
  let s := Portal.run "/ebook" [Portal.Authenticated true; Portal.ClickSync] in
  Portal.step s (Portal.Navigate (App.currentPath (Portal.app s))) = s /\
  let out := Portal.step s (Portal.Authenticated false) in
  Portal.mounted out = None /\
  (forall r, r ∈ Portal.inflight out -> Portal.cancelled r = true) /\
  (forall n, Portal.app (Portal.step out (Portal.Settle n)) = Portal.app out).
Proof.
  apply renavigation_is_idle_and_logout_cancels_everything.
  exists "/ebook", [Portal.Authenticated true; Portal.ClickSync].
  reflexivity.
Defined.
